(** * flyteadmin: authentication context, gateway wiring, workflow preparation

    A shallow embedding of
      - auth/auth_context.go        (package auth),
      - cmd/entrypoints/serve.go    (package entrypoints),
      - the executions helper [PrepareFlyteWorkflow],
    together with the parts of the Go standard library ([strings],
    [net/url], [net/http]) and of the gRPC middleware those files call.

    Conventions.
      - A Go [string] is a Rocq [string] (a sequence of bytes).
      - A Go pointer or interface value that may be [nil] is an [option];
        [None] is [nil].
      - A pointer whose identity matters ([*oauth2.Config]) is a location
        in an explicit heap.
      - A Go [error] result is [option error]; [None] is the nil error.
      - A run-time panic is the [Panics] outcome of [exec]. *)

From stdpp Require Import base option strings list gmap.
From Stdlib Require Import ZArith Ascii.

Local Open Scope string_scope.
Local Open Scope list_scope.

(** ** Outcomes of a Go call that may panic *)

Inductive exec (A : Type) : Type :=
| Returns (a : A)
| Panics (reason : string).
Arguments Returns {A} a.
Arguments Panics {A} reason.

Definition exec_bind {A B} (m : exec A) (k : A → exec B) : exec B :=
  match m with
  | Returns a => k a
  | Panics r => Panics r
  end.

Notation "'go!' x ← m ; k" := (exec_bind m (λ x, k))
  (at level 20, x binder, m at level 100, k at level 200,
   format "'[v' 'go!'  x  ←  m ;  '/' k ']'").

(** ** Package [strings] of the Go standard library *)

Module strings.

(** [strings.HasPrefix(s, prefix)]:
    [len(s) >= len(prefix) && s[0:len(prefix)] == prefix]. *)
Definition HasPrefix (s prefix : string) : bool :=
  (String.length prefix <=? String.length s)%nat
  && String.eqb (String.substring 0 (String.length prefix) s) prefix.

(** [strings.HasSuffix(s, suffix)]:
    [len(s) >= len(suffix) && s[len(s)-len(suffix):] == suffix]. *)
Definition HasSuffix (s suffix : string) : bool :=
  (String.length suffix <=? String.length s)%nat
  && String.eqb
       (String.substring (String.length s - String.length suffix)
          (String.length suffix) s)
       suffix.

(** [strings.TrimSuffix(s, suffix)]: [s] without the trailing [suffix]
    when [s] ends in it, [s] itself otherwise. *)
Definition TrimSuffix (s suffix : string) : string :=
  if HasSuffix s suffix
  then String.substring 0 (String.length s - String.length suffix) s
  else s.

(** [strings.Contains(s, substr)]: [substr] occurs at some offset of [s]. *)
Fixpoint Contains (s substr : string) : bool :=
  HasPrefix s substr
  || match s with
     | EmptyString => false
     | String _ s' => Contains s' substr
     end.

(** [strings.Split(s, "/")] for the one-byte separator [sep]. The result
    is never empty: a string without separator is its only field. *)
Fixpoint SplitByte (sep : ascii) (s : string) : list string :=
  match s with
  | EmptyString => [EmptyString]
  | String c s' =>
      if Ascii.eqb c sep then EmptyString :: SplitByte sep s'
      else match SplitByte sep s' with
           | [] => [String c EmptyString]
           | f :: fs => String c f :: fs
           end
  end.

(** [strings.Join(elems, sep)]. *)
Fixpoint Join (elems : list string) (sep : string) : string :=
  match elems with
  | [] => EmptyString
  | [e] => e
  | e :: rest => e +:+ sep +:+ Join rest sep
  end.

(** [strings.TrimPrefix(s, prefix)]. *)
Definition TrimPrefix (s prefix : string) : string :=
  if HasPrefix s prefix
  then String.substring (String.length prefix)
         (String.length s - String.length prefix) s
  else s.

(** [strings.IndexByte(s, c) >= 0]. *)
Fixpoint ContainsByte (s : string) (c : ascii) : bool :=
  match s with
  | EmptyString => false
  | String d s' => Ascii.eqb d c || ContainsByte s' c
  end.

(** [s[:strings.IndexByte(s, c)]] when [c] occurs in [s]. *)
Fixpoint BeforeByte (s : string) (c : ascii) : string :=
  match s with
  | EmptyString => EmptyString
  | String d s' => if Ascii.eqb d c then EmptyString else String d (BeforeByte s' c)
  end.

End strings.

(** The line feed, Go's ["\n"]. *)
Definition newline : string := String (ascii_of_N 10) "".

(** ** Package [net/url] of the Go standard library

    The model follows [net/url] as of Go 1.16 on URLs that carry no
    [RawPath]/[RawFragment] encoding hint, so that [EscapedPath] is the
    default encoding of [Path]. *)

Module url.

Record Userinfo : Type := mkUserinfo {
  username : string;
  password : string;
  passwordSet : bool;
}.

Record URL : Type := mkURL {
  Scheme : string;
  Opaque : string;
  User : option Userinfo;
  Host : string;
  Path : string;
  ForceQuery : bool;
  RawQuery : string;
  Fragment : string;
}.

Inductive encoding : Type :=
| encodePath
| encodePathSegment
| encodeHost
| encodeZone
| encodeUserPassword
| encodeQueryComponent
| encodeFragment.

Definition byteIn (lo hi : N) (c : ascii) : bool :=
  let n := N_of_ascii c in ((lo <=? n) && (n <=? hi))%N.

Definition oneOf (c : ascii) (set : string) : bool :=
  strings.ContainsByte set c.

Definition doubleQuote : ascii := ascii_of_N 34.

(** [shouldEscape(c, mode)]. *)
Definition shouldEscape (c : ascii) (mode : encoding) : bool :=
  if byteIn 97 122 c || byteIn 65 90 c || byteIn 48 57 c then false
  else if match mode with encodeHost | encodeZone => true | _ => false end
          && (oneOf c "!$&'()*+,;=:[]<>" || Ascii.eqb c doubleQuote)
  then false
  else if oneOf c "-_.~" then false
  else if oneOf c "$&+,/:;=?@"
          && match mode with
             | encodePath | encodePathSegment | encodeUserPassword
             | encodeQueryComponent | encodeFragment => true
             | _ => false
             end
  then match mode with
       | encodePath => Ascii.eqb c "?"
       | encodePathSegment => oneOf c "/;,?"
       | encodeUserPassword => oneOf c "@/?:"
       | encodeQueryComponent => true
       | _ => false
       end
  else if match mode with encodeFragment => true | _ => false end
          && oneOf c "!()*"
  then false
  else true.

Definition upperhex : string := "0123456789ABCDEF".

Definition hexDigit (n : N) : ascii :=
  default "0"%char (String.get (N.to_nat n) upperhex).

(** [escape(s, mode)]: percent-encode the bytes [shouldEscape] selects. *)
Fixpoint escape (s : string) (mode : encoding) : string :=
  match s with
  | EmptyString => EmptyString
  | String c s' =>
      if shouldEscape c mode then
        if Ascii.eqb c " "
           && match mode with encodeQueryComponent => true | _ => false end
        then String "+" (escape s' mode)
        else
          let n := N_of_ascii c in
          String "%" (String (hexDigit (n / 16)) (String (hexDigit (n mod 16))
                                                    (escape s' mode)))
      else String c (escape s' mode)
  end.

Definition ishex (c : ascii) : bool :=
  byteIn 48 57 c || byteIn 97 102 c || byteIn 65 70 c.

Definition unhex (c : ascii) : N :=
  let n := N_of_ascii c in
  if byteIn 48 57 c then n - 48
  else if byteIn 97 102 c then n - 97 + 10
  else if byteIn 65 70 c then n - 65 + 10
  else 0.

(** [unescape(s, encodePath)]; [None] is the [EscapeError] result. *)
Fixpoint unescapePath (s : string) : option string :=
  match s with
  | EmptyString => Some EmptyString
  | String c s1 =>
      if Ascii.eqb c "%" then
        match s1 with
        | String h (String l rest) =>
            if ishex h && ishex l
            then String (ascii_of_N (unhex h * 16 + unhex l)) <$> unescapePath rest
            else None
        | _ => None
        end
      else String c <$> unescapePath s1
  end.

Definition Userinfo_String (u : Userinfo) : string :=
  escape (username u) encodeUserPassword
  +:+ (if passwordSet u then ":" +:+ escape (password u) encodeUserPassword
       else "").

Definition EscapedPath (u : URL) : string :=
  if String.eqb (Path u) "*" then "*" else escape (Path u) encodePath.

Definition nonEmpty (s : string) : bool := negb (String.eqb s "").

(** [URL.String]: [scheme:opaque?query#fragment] or
    [scheme://userinfo@host/path?query#fragment]. *)
Definition String (u : URL) : string :=
  let scheme := if nonEmpty (Scheme u) then Scheme u +:+ ":" else "" in
  let body :=
    if nonEmpty (Opaque u) then scheme +:+ Opaque u
    else
      let authority :=
        if nonEmpty (Scheme u) || nonEmpty (Host u) || bool_decide (is_Some (User u))
        then
          (if nonEmpty (Host u) || nonEmpty (Path u) || bool_decide (is_Some (User u))
           then "//" else "")
          +:+ match User u with
              | Some ui => Userinfo_String ui +:+ "@"
              | None => ""
              end
          +:+ (if nonEmpty (Host u) then escape (Host u) encodeHost else "")
        else "" in
      let path := EscapedPath u in
      let buf := scheme +:+ authority in
      let buf :=
        if nonEmpty path && negb (strings.HasPrefix path "/") && nonEmpty (Host u)
        then buf +:+ "/" else buf in
      let buf :=
        if String.eqb buf ""
           && strings.ContainsByte path ":"
           && negb (strings.ContainsByte (strings.BeforeByte path ":") "/")
        then buf +:+ "./" else buf in
      buf +:+ path in
  let body :=
    if ForceQuery u || nonEmpty (RawQuery u) then body +:+ "?" +:+ RawQuery u
    else body in
  if nonEmpty (Fragment u) then body +:+ "#" +:+ escape (Fragment u) encodeFragment
  else body.

(** One step of the dot-segment loop of [resolvePath]. *)
Definition dotSegment (dst : list string) (elem : string) : list string :=
  if String.eqb elem "." then dst
  else if String.eqb elem ".." then removelast dst
  else (dst ++ [elem])%list.

(** [resolvePath(base, ref)]: RFC 3986 sections 5.2.2 to 5.2.4. *)
Definition resolvePath (base ref : string) : string :=
  let full :=
    if String.eqb ref "" then base
    else if negb (strings.HasPrefix ref "/")
    then match rev (strings.SplitByte "/" base) with
         | _ :: dirs => strings.Join (rev dirs ++ [ref])%list "/"
         | [] => ref
         end
    else ref in
  if String.eqb full "" then ""
  else
    let src := strings.SplitByte "/" full in
    let dst := foldl dotSegment [] src in
    let last := List.last src "" in
    let dst := if String.eqb last "." || String.eqb last ".."
               then (dst ++ [""])%list else dst in
    "/" +:+ strings.TrimPrefix (strings.Join dst "/") "/".

(** [URL.setPath], with the error ignored as [ResolveReference] does. *)
Definition setPath (u : URL) (p : string) : URL :=
  match unescapePath p with
  | Some path =>
      mkURL (Scheme u) (Opaque u) (User u) (Host u) path
            (ForceQuery u) (RawQuery u) (Fragment u)
  | None => u
  end.

(** [URL.ResolveReference(ref)]: resolve [ref] against the base [u]. *)
Definition ResolveReference (u ref : URL) : URL :=
  let scheme := if String.eqb (Scheme ref) "" then Scheme u else Scheme ref in
  if nonEmpty (Scheme ref) || nonEmpty (Host ref) || bool_decide (is_Some (User ref))
  then
    setPath (mkURL scheme (Opaque ref) (User ref) (Host ref) (Path ref)
                   (ForceQuery ref) (RawQuery ref) (Fragment ref))
            (resolvePath (EscapedPath ref) "")
  else if nonEmpty (Opaque ref)
  then mkURL scheme (Opaque ref) None "" ""
             (ForceQuery ref) (RawQuery ref) (Fragment ref)
  else
    let inherit := String.eqb (Path ref) "" && String.eqb (RawQuery ref) "" in
    let query := if inherit then RawQuery u else RawQuery ref in
    let fragment :=
      if inherit && String.eqb (Fragment ref) "" then Fragment u
      else Fragment ref in
    setPath (mkURL scheme (Opaque ref) (User u) (Host u) (Path ref)
                   (ForceQuery ref) query fragment)
            (resolvePath (EscapedPath u) (EscapedPath ref)).

(** The result of [url.Parse] on an absolute-path reference without
    query, fragment or escapes, such as ["/callback"]. *)
Definition absPath (p : string) : URL :=
  mkURL "" "" None "" p false "" "".

End url.

(** ** Package [golang.org/x/oauth2]: the client descriptor *)

Module oauth2.

Record Endpoint : Type := mkEndpoint {
  AuthURL : string;
  TokenURL : string;
}.

Record Config : Type := mkConfig {
  ClientID : string;
  ClientSecret : string;
  Endpoint_ : Endpoint;
  RedirectURL : string;
  Scopes : list string;
}.

(** The zero value [oauth2.Config{}]. *)
Definition zero : Config := mkConfig "" "" (mkEndpoint "" "") "" [].

End oauth2.

(** ** Errors: Go's [error] values and flytestdlib's coded errors *)

Module errors.

Definition ErrorCode : Type := string.

(** [errorString] is a plain [errors.New] value, [errorWithCause] a
    flytestdlib error made by [Wrapf], [withMessage] an error annotated
    by [Wrap] of github.com/pkg/errors, and [statusError] an error that
    carries a gRPC status code (a [status.Error] or a [FlyteAdminError]). *)
Inductive error : Type :=
| errorString (message : string)
| errorWithCause (code : ErrorCode) (message : string) (cause : error)
| withMessage (message : string) (cause : error)
| statusError (code : Z) (message : string).

(** [errors.Wrapf(code, cause, msg)]: never nil. *)
Definition Wrapf (code : ErrorCode) (cause : error) (msg : string) : error :=
  errorWithCause code msg cause.

(** The code carried by an error, if it is a coded one. *)
Definition Code (e : error) : option ErrorCode :=
  match e with
  | errorString _ => None
  | errorWithCause code _ _ => Some code
  | withMessage _ _ => None
  | statusError _ _ => None
  end.

(** Package [google.golang.org/grpc/codes]. *)
Definition codes_OK : Z := 0.
Definition codes_Unknown : Z := 2.
Definition codes_InvalidArgument : Z := 3.
Definition codes_Internal : Z := 13.
Definition codes_Unauthenticated : Z := 16.

(** [status.Code(err)]. *)
Definition status_Code (err : option error) : Z :=
  match err with
  | None => codes_OK
  | Some (statusError code _) => code
  | Some _ => codes_Unknown
  end.

(** [errors.NewFlyteAdminErrorf(code, msg)]. *)
Definition NewFlyteAdminErrorf (code : Z) (msg : string) : error :=
  statusError code msg.

End errors.

Abbreviation error := errors.error.

(** A Go result pair [(value, error)] whose value is only read when the
    error is nil. *)
Inductive result (A : Type) : Type :=
| Ok (a : A)
| Err (e : error).
Arguments Ok {A} a.
Arguments Err {A} e.

Notation "'try!' x ← r 'else' err ⇒ bad ; k" :=
  (match r with Ok x => k | Err err => bad end)
  (at level 20, x name, err name, r at level 100, bad at level 100, k at level 200,
   format "'[v' 'try!'  x  ←  r  'else'  err  ⇒  bad ;  '/' k ']'").

(** ** Package [auth/config]: the options read by the auth context

    The declarations of this package are not among the sources; the records
    list the fields [auth_context.go] reads. [config.URL] wraps a
    [url.URL] and is identified with it. *)

Module config.

Record OpenIDOptions : Type := mkOpenIDOptions {
  ClientID : string;
  ClientSecretName : string;
  DeprecatedClientSecretFile : string;
  BaseURL : url.URL;
  Scopes : list string;
}.

Record UserAuthConfig : Type := mkUserAuthConfig {
  CookieHashKeySecretName : string;
  CookieBlockKeySecretName : string;
  OpenID : OpenIDOptions;
}.

Record Config : Type := mkConfig {
  HTTPPublicUri : url.URL;
  UserAuth : UserAuthConfig;
}.

End config.

(** ** Collaborators

    Interface types whose implementations live outside the files modelled
    here. *)

Class Collaborators : Type := {
  (** [context.Context] *)
  context_Context : Type;
  (** [interfaces.CookieHandler] *)
  CookieHandler : Type;
  (** [*oidc.Provider] *)
  oidc_Provider : Type;
  (** [interfaces.OAuth2Provider] *)
  OAuth2Provider : Type;
  (** [interfaces.OAuth2ResourceServer] *)
  OAuth2ResourceServer : Type;
  (** [interfaces.OAuth2MetadataProvider] *)
  OAuth2MetadataProvider : Type;
  (** [interfaces.OIdCUserInfoProvider] *)
  OIdCUserInfoProvider : Type;
  (** the request and response messages of a unary RPC *)
  grpc_request : Type;
  grpc_response : Type;
  (** [*runtime.ServeMux] of grpc-gateway *)
  runtime_ServeMux : Type;
}.

(** ** Package [auth]: auth_context.go *)

Module auth.

(** Addresses of [oauth2.Config] objects, and the store holding them.
    Allocation appends; Go never frees a reachable object. *)
Abbreviation loc := nat.
Abbreviation heap := (list oauth2.Config).

Section auth.
Context `{Collaborators}.

(** [http.Client], of which only the timeout (in nanoseconds) is set. *)
Record http_Client : Type := mkClient { Timeout : Z }.

Definition IdpConnectionTimeout : Z := 10 * 1000000000.

Definition ErrauthCtx : errors.ErrorCode := "AUTH_CONTEXT_SETUP_FAILED".
Definition ErrConfigFileRead : errors.ErrorCode := "CONFIG_OPTION_FILE_READ_FAILED".

Definition anonymousMethodNames : gset string :=
  {[ "/flyteidl.service.AuthService/OAuth2Metadata";
     "/flyteidl.service.AuthService/FlyteClient" ]}.

(** [config.MustParseURL("/callback")] and [config.MustParseURL("/")]. *)
Definition callbackRelativeUrl : url.URL := url.absPath "/callback".
Definition rootRelativeUrl : url.URL := url.absPath "/".

(** [grpcauth.AuthFunc]. *)
Definition AuthFunc : Type :=
  context_Context → context_Context * option error.

Record authServiceWrapper : Type := mkAuthServiceWrapper {
  embeddedOAuth2MetadataProvider : option OAuth2MetadataProvider;
  embeddedOIdCUserInfoProvider : option OIdCUserInfoProvider;
  authInterceptor : AuthFunc;
}.

(** Override auth func to enforce anonymous access on the implemented APIs. *)
Definition AuthFuncOverride (s : authServiceWrapper) (ctx : context_Context)
    (fullMethodName : string) : context_Context * option error :=
  if bool_decide (fullMethodName ∈ anonymousMethodNames) then (ctx, None)
  else authInterceptor s ctx.

(** [&v]: the object [v] placed at a fresh address. *)
Definition new (h : heap) (v : oauth2.Config) : loc * heap :=
  (length h, h ++ [v]).

Record Context : Type := mkContext {
  oauth2Client : option loc;
  cookieManager : option CookieHandler;
  oidcProvider : option oidc_Provider;
  options : option config.Config;
  oauth2Provider : option OAuth2Provider;
  oauth2ResourceServer : option OAuth2ResourceServer;
  AuthServiceImpl : option authServiceWrapper;
  userInfoURL : option url.URL;
  oauth2MetadataURL : option url.URL;
  oidcMetadataURL : option url.URL;
  httpClient : option http_Client;
}.

(** The zero value [Context{}]. *)
Definition zeroContext : Context :=
  mkContext None None None None None None None None None None None.

(** The read accessors of [Context]. *)
Definition OAuth2Provider_ (c : Context) : option OAuth2Provider := oauth2Provider c.
Definition OidcProvider (c : Context) : option oidc_Provider := oidcProvider c.
Definition CookieManager (c : Context) : option CookieHandler := cookieManager c.
Definition Options (c : Context) : option config.Config := options c.
Definition GetUserInfoURL (c : Context) : option url.URL := userInfoURL c.
Definition GetHTTPClient (c : Context) : option http_Client := httpClient c.
Definition GetOAuth2MetadataURL (c : Context) : option url.URL := oauth2MetadataURL c.
Definition GetOIdCMetadataURL (c : Context) : option url.URL := oidcMetadataURL c.
Definition AuthService (c : Context) : option authServiceWrapper := AuthServiceImpl c.
Definition OAuth2ResourceServer_ (c : Context) : option OAuth2ResourceServer :=
  oauth2ResourceServer c.

Definition OAuth2ClientConfig (c : Context) (requestUrl : option url.URL)
    (h : heap) : exec (option loc * heap) :=
  match requestUrl with
  | None => Returns (oauth2Client c, h)
  | Some requestUrl =>
      match oauth2Client c ≫= (h !!.) with
      | None => Panics "invalid memory address or nil pointer dereference"
      | Some dflt =>
          if strings.HasPrefix (oauth2.RedirectURL dflt)
               (url.String (url.ResolveReference requestUrl rootRelativeUrl))
          then Returns (oauth2Client c, h)
          else
            let (l, h') :=
              new h (oauth2.mkConfig
                       (oauth2.ClientID dflt)
                       (oauth2.ClientSecret dflt)
                       (oauth2.Endpoint_ dflt)
                       (url.String (url.ResolveReference requestUrl callbackRelativeUrl))
                       (oauth2.Scopes dflt)) in
            Returns (Some l, h')
      end
  end.

(** The assignment [c.AuthServiceImpl = svc]. *)
Definition set_AuthServiceImpl (c : Context) (svc : option authServiceWrapper)
    : Context :=
  mkContext (oauth2Client c) (cookieManager c) (oidcProvider c) (options c)
            (oauth2Provider c) (oauth2ResourceServer c) svc (userInfoURL c)
            (oauth2MetadataURL c) (oidcMetadataURL c) (httpClient c).

(** [core.SecretManager]. *)
Record SecretManager : Type := mkSecretManager {
  Get : context_Context → string → result string;
}.

(** Functions and constants that [auth_context.go] uses and that are
    defined elsewhere: in the Go standard library ([url.Parse],
    [ioutil.ReadFile]), in go-oidc, and in other files of package [auth]. *)
Class Environment : Type := {
  NewCookieManager : context_Context → string → string → result CookieHandler;
  oidc_NewProvider : context_Context → http_Client → string → result oidc_Provider;
  Provider_Endpoint : oidc_Provider → oauth2.Endpoint;
  url_Parse : string → result url.URL;
  ioutil_ReadFile : string → result string;
  GetAuthenticationInterceptor : Context → AuthFunc;
  OAuth2MetadataEndpoint : string;
  OIdCMetadataEndpoint : string;
}.
Context `{Environment}.

(** This creates a oauth2 library config object, with values from the
    Flyte Admin config. *)
Definition GetOAuth2ClientConfig (ctx : context_Context)
    (options : config.OpenIDOptions) (publicHTTPBaseUrl : url.URL)
    (providerEndpoints : oauth2.Endpoint) (sm : SecretManager)
    : oauth2.Config * option error :=
  let finish (secret : string) :=
    let secret := strings.TrimSuffix secret newline in
    (oauth2.mkConfig
       (config.ClientID options)
       secret
       providerEndpoints
       (url.String (url.ResolveReference publicHTTPBaseUrl callbackRelativeUrl))
       (config.Scopes options),
     None) in
  if (0 <? String.length (config.DeprecatedClientSecretFile options))%nat then
    try! secretBytes ← ioutil_ReadFile (config.ClientSecretName options)
      else err ⇒ (oauth2.zero, Some err);
    finish secretBytes
  else
    try! secret ← Get sm ctx (config.ClientSecretName options)
      else err ⇒ (oauth2.zero, Some err);
    finish secret.

(** [NewAuthenticationContext]: the context or the error, and the store
    after the call. The log lines of the source are left out; they do not
    bear on what is returned. *)
Definition NewAuthenticationContext (ctx : context_Context) (sm : SecretManager)
    (oauth2Provider : option OAuth2Provider)
    (oauth2ResourceServer : option OAuth2ResourceServer)
    (metadataProvider : option OAuth2MetadataProvider)
    (infoProvider : option OIdCUserInfoProvider)
    (options : config.Config) (h : heap)
    : (Context * option error) * heap :=
  let UserAuth := config.UserAuth options in
  (* Construct the cookie manager object. *)
  try! hashKeyBase64 ← Get sm ctx (config.CookieHashKeySecretName UserAuth)
    else err ⇒ ((zeroContext,
                 Some (errors.Wrapf ErrConfigFileRead err "Could not read hash key file")), h);
  try! blockKeyBase64 ← Get sm ctx (config.CookieBlockKeySecretName UserAuth)
    else err ⇒ ((zeroContext,
                 Some (errors.Wrapf ErrConfigFileRead err "Could not read hash key file")), h);
  try! cookieManager ← NewCookieManager ctx hashKeyBase64 blockKeyBase64
    else err ⇒ ((zeroContext,
                 Some (errors.Wrapf ErrauthCtx err "Error creating cookie manager")), h);
  (* Construct an http client for interacting with the IDP if necessary. *)
  let httpClient := mkClient IdpConnectionTimeout in
  (* Construct an oidc Provider, which needs its own http Client. *)
  let baseURL := url.String (config.BaseURL (config.OpenID UserAuth)) in
  try! provider ← oidc_NewProvider ctx httpClient baseURL
    else err ⇒ ((zeroContext,
                 Some (errors.Wrapf ErrauthCtx err
                         ("Error creating oidc provider w/ issuer [" +:+ baseURL +:+ "]"))), h);
  (* The golang OAuth2 library's own configuration object. *)
  match GetOAuth2ClientConfig ctx (config.OpenID UserAuth)
          (config.HTTPPublicUri options) (Provider_Endpoint provider) sm with
  | (_, Some err) =>
      ((zeroContext,
        Some (errors.Wrapf ErrauthCtx err "Error creating OAuth2 library configuration")), h)
  | (oauth2Config, None) =>
      try! oauth2MetadataURL ← url_Parse OAuth2MetadataEndpoint
        else err ⇒ ((zeroContext,
                     Some (errors.Wrapf ErrauthCtx err "Error parsing metadata URL")), h);
      try! oidcMetadataURL ← url_Parse OIdCMetadataEndpoint
        else err ⇒ ((zeroContext,
                     Some (errors.Wrapf ErrauthCtx err "Error parsing metadata URL")), h);
      let (oauth2ClientPtr, h') := new h oauth2Config in
      let authCtx :=
        mkContext (Some oauth2ClientPtr) (Some cookieManager) (Some provider)
                  (Some options) oauth2Provider oauth2ResourceServer
                  None None (Some oauth2MetadataURL) (Some oidcMetadataURL)
                  (Some httpClient) in
      let authSvc :=
        mkAuthServiceWrapper metadataProvider infoProvider
                             (GetAuthenticationInterceptor authCtx) in
      ((set_AuthServiceImpl authCtx (Some authSvc),
        None), h')
  end.

End auth.
End auth.

(** ** Package [net/http] of the Go standard library *)

Module http.

Definition Header : Type := gmap string (list string).

Record Request : Type := mkRequest {
  ProtoMajor : Z;
  Header_ : Header;
  URL_Path : string;
}.

(** The state of an [http.ResponseWriter]: the status written so far, if
    any, and the body. *)
Record ResponseWriter : Type := mkResponseWriter {
  status : option Z;
  body : string;
}.

Definition StatusOK : Z := 200.
Definition StatusFailedDependency : Z := 424.

(** [w.WriteHeader(code)]: a second call is ignored. *)
Definition WriteHeader (w : ResponseWriter) (code : Z) : ResponseWriter :=
  match status w with
  | Some _ => w
  | None => mkResponseWriter (Some code) (body w)
  end.

(** [w.Write(data)]: sends status 200 first if none was written. *)
Definition Write (w : ResponseWriter) (data : string) : ResponseWriter :=
  let w := WriteHeader w StatusOK in
  mkResponseWriter (status w) (body w +:+ data).

(** An [http.Handler], by its [ServeHTTP]. *)
Definition Handler : Type := ResponseWriter → Request → ResponseWriter.

Definition isLower (c : ascii) : bool := url.byteIn 97 122 c.
Definition isUpper (c : ascii) : bool := url.byteIn 65 90 c.
Definition toUpper (c : ascii) : ascii :=
  if isLower c then ascii_of_N (N_of_ascii c - 32) else c.
Definition toLower (c : ascii) : ascii :=
  if isUpper c then ascii_of_N (N_of_ascii c + 32) else c.

(** [validHeaderFieldByte]: the token bytes of RFC 7230. *)
Definition validHeaderFieldByte (c : ascii) : bool :=
  isLower c || isUpper c || url.byteIn 48 57 c
  || url.oneOf c "!#$%&'*+-.^_`|~".

Fixpoint allValid (s : string) : bool :=
  match s with
  | EmptyString => true
  | String c s' => validHeaderFieldByte c && allValid s'
  end.

Fixpoint canonicalize (upper : bool) (s : string) : string :=
  match s with
  | EmptyString => EmptyString
  | String c s' =>
      String (if upper then toUpper c else toLower c)
             (canonicalize (Ascii.eqb c "-") s')
  end.

(** [textproto.CanonicalMIMEHeaderKey]: the first letter and every letter
    after a hyphen in upper case, the others in lower case; a key with a
    byte that is not a token byte is returned as it is. *)
Definition CanonicalMIMEHeaderKey (s : string) : string :=
  if allValid s then canonicalize true s else s.

(** [h.Get(key)]: the first value stored under the canonical form of
    [key], or the empty string. *)
Definition Get (h : Header) (key : string) : string :=
  match h !! CanonicalMIMEHeaderKey key with
  | Some (v :: _) => v
  | _ => ""
  end.

(** [http.ServeMux]: the registered patterns with their handlers. *)
Definition ServeMux : Type := gmap string Handler.

Definition NewServeMux : ServeMux := ∅.

(** [mux.Handle(pattern, handler)] and [mux.HandleFunc]: panics on an
    empty pattern and on a pattern that is already registered. *)
Definition Handle (mux : ServeMux) (pattern : string) (handler : Handler)
    : exec ServeMux :=
  if String.eqb pattern "" then Panics "http: invalid pattern"
  else match mux !! pattern with
       | Some _ => Panics ("http: multiple registrations for " +:+ pattern)
       | None => Returns (<[pattern := handler]> mux)
       end.

(** [mux.match(path)]: the handler registered for exactly [path],
    otherwise the handler of the longest registered pattern that ends in
    a slash and is a prefix of [path]. *)
Definition match_ (mux : ServeMux) (path : string) : option (string * Handler) :=
  match mux !! path with
  | Some h => Some (path, h)
  | None =>
      map_fold
        (λ pattern h best,
           if strings.HasSuffix pattern "/" && strings.HasPrefix path pattern
           then match best with
                | Some (p, _) =>
                    if (String.length p <? String.length pattern)%nat
                    then Some (pattern, h) else best
                | None => Some (pattern, h)
                end
           else best)
        None mux
  end.

Definition StatusNotFound : Z := 404.

(** [mux.ServeHTTP(w, r)] for a request whose path is in canonical form:
    the matching handler serves it, or it is answered with status 404. *)
Definition ServeHTTP (mux : ServeMux) : Handler :=
  λ w r,
    match match_ mux (URL_Path r) with
    | Some (_, h) => h w r
    | None => Write (WriteHeader w StatusNotFound) "404 page not found"
    end.

End http.

(** ** gRPC: server options, unary interceptors and the middleware

    A unary call is observed through the events its interceptors produce:
    what the metrics interceptor records, and the decision of the
    authentication function. A handler returns its reply together with the
    events of its run, in order. *)

Module grpc.
Section grpc.
Context `{Collaborators}.

Inductive event : Type :=
| MetricsStarted (fullMethod : string)
| MetricsMsgReceived (fullMethod : string)
| MetricsHandled (fullMethod : string) (code : Z)
| MetricsMsgSent (fullMethod : string)
| AuthDecision (fullMethod : string) (err : option error)
| HandlerEvent (label : string).

Definition M (A : Type) : Type := A * list event.

Definition ret {A} (a : A) : M A := (a, []).
Definition emit (e : event) : M unit := (tt, [e]).
Definition bind {A B} (m : M A) (k : A → M B) : M B :=
  let (a, evs) := m in
  let (b, evs') := k a in
  (b, evs ++ evs').

(** The Go result pair [(interface{}, error)] of a unary handler. *)
Definition reply : Type := option grpc_response * option error.

(** [grpc.UnaryHandler]. *)
Definition UnaryHandler : Type :=
  context_Context → grpc_request → M reply.

(** [grpc.UnaryServerInfo]. [Server] holds the [AuthFuncOverride] method
    of the service implementation when it has one. *)
Record UnaryServerInfo : Type := mkUnaryServerInfo {
  Server : option (context_Context → string → context_Context * option error);
  FullMethod : string;
}.

(** [grpc.UnaryServerInterceptor]. *)
Definition UnaryServerInterceptor : Type :=
  context_Context → grpc_request → UnaryServerInfo → UnaryHandler → M reply.

Inductive StreamServerInterceptor : Type :=
| grpc_prometheus_StreamServerInterceptor.

Record serverOptions : Type := mkServerOptions {
  creds : option string;
  unaryInt : option UnaryServerInterceptor;
  streamInt : option StreamServerInterceptor;
}.

(** A [grpc.ServerOption] applies itself to the options. *)
Definition ServerOption : Type := serverOptions → exec serverOptions.

Definition UnaryInterceptor (i : UnaryServerInterceptor) : ServerOption :=
  λ o, match unaryInt o with
       | Some _ =>
           Panics "The unary server interceptor was already set and may not be reset."
       | None => Returns (mkServerOptions (creds o) (Some i) (streamInt o))
       end.

Definition StreamInterceptor (i : StreamServerInterceptor) : ServerOption :=
  λ o, match streamInt o with
       | Some _ =>
           Panics "The stream server interceptor was already set and may not be reset."
       | None => Returns (mkServerOptions (creds o) (unaryInt o) (Some i))
       end.

Definition Creds (c : string) : ServerOption :=
  λ o, Returns (mkServerOptions (Some c) (unaryInt o) (streamInt o)).

(** An option that sets something other than an interceptor, such as
    [Creds]: it applies without panic and leaves both interceptors. *)
Definition leavesInterceptors (f : ServerOption) : Prop :=
  ∀ o, ∃ o', f o = Returns o'
             ∧ unaryInt o' = unaryInt o
             ∧ streamInt o' = streamInt o.

Record Server_ : Type := mkServer {
  opts : serverOptions;
  services : list string;
}.

(** [grpc.NewServer(opt...)]. *)
Definition NewServer (opt : list ServerOption) : exec Server_ :=
  go! o ← foldl (λ acc (f : ServerOption), go! o ← acc; f o)
                (Returns (mkServerOptions None None None)) opt;
  Returns (mkServer o []).

Definition RegisterService (s : Server_) (name : string) : Server_ :=
  mkServer (opts s) (services s ++ [name]).

(** How the server runs the method [handler] of a unary call: through the
    unary interceptor when one is set. *)
Definition handleUnary (s : Server_) (ctx : context_Context) (req : grpc_request)
    (info : UnaryServerInfo) (handler : UnaryHandler) : M reply :=
  match unaryInt (opts s) with
  | None => handler ctx req
  | Some interceptor => interceptor ctx req info handler
  end.

(** [grpc_middleware.ChainUnaryServer]: the first interceptor is the
    outermost one, the handler the innermost. *)
Definition ChainUnaryServer (interceptors : list UnaryServerInterceptor)
    : UnaryServerInterceptor :=
  λ ctx req info handler,
    let chainer (currentInter : UnaryServerInterceptor)
                (currentHandler : UnaryHandler) : UnaryHandler :=
      λ currentCtx currentReq, currentInter currentCtx currentReq info currentHandler in
    foldr chainer handler interceptors ctx req.

(** [grpc_prometheus.UnaryServerInterceptor]. *)
Definition grpc_prometheus_UnaryServerInterceptor : UnaryServerInterceptor :=
  λ ctx req info handler,
    bind (emit (MetricsStarted (FullMethod info))) (λ _,
    bind (emit (MetricsMsgReceived (FullMethod info))) (λ _,
    bind (handler ctx req) (λ '(resp, err),
    bind (emit (MetricsHandled (FullMethod info) (errors.status_Code err))) (λ _,
    bind (match err with
          | None => emit (MetricsMsgSent (FullMethod info))
          | Some _ => ret tt
          end) (λ _,
    ret (resp, err)))))).

(** [grpcauth.UnaryServerInterceptor(authFunc)]. *)
Definition grpcauth_UnaryServerInterceptor
    (authFunc : context_Context → context_Context * option error)
    : UnaryServerInterceptor :=
  λ ctx req info handler,
    let '(newCtx, err) :=
      match Server info with
      | Some AuthFuncOverride => AuthFuncOverride ctx (FullMethod info)
      | None => authFunc ctx
      end in
    bind (emit (AuthDecision (FullMethod info) err)) (λ _,
    match err with
    | Some err => ret (None, Some err)
    | None => handler newCtx req
    end).

End grpc.
End grpc.

(** ** Package [entrypoints]: cmd/entrypoints/serve.go *)

Module entrypoints.
Section entrypoints.
Context `{Collaborators}.

Record SecurityConfig : Type := mkSecurityConfig {
  Secure : bool;
  UseAuth : bool;
}.

Record ServerConfig : Type := mkServerConfig {
  Security : SecurityConfig;
  KubeConfig : string;
  Master : string;
}.

(** The options given to [runtime.NewServeMux]. *)
Inductive ServeMuxOption : Type :=
| WithMarshalerOption (mime : string) (marshaler : string)
| WithMetadata (annotator : http.Request → list (string * string)).

(** Functions that [serve.go] calls and that are defined elsewhere: in
    package [auth] of this repository, in flyteidl, grpc-gateway and
    grpc. [serve.go] passes the authentication context as an interface
    value, which is nil when the server runs without TLS. *)
Class Environment : Type := {
  GetAuthenticationInterceptor : option auth.Context → auth.AuthFunc;
  AuthenticationLoggingInterceptor : grpc.UnaryServerInterceptor;
  RefreshTokensIfExists :
    context_Context → option auth.Context → http.Handler → http.Handler;
  GetLoginHandler : context_Context → option auth.Context → http.Handler;
  GetCallbackHandler : context_Context → option auth.Context → http.Handler;
  GetHttpRequestCookieToMetadataHandler :
    option auth.Context → http.Request → list (string * string);
  flyteService_Asset : string → result string;
  runtime_NewServeMux : list ServeMuxOption → runtime_ServeMux;
  RegisterAdminServiceHandlerFromEndpoint :
    context_Context → runtime_ServeMux → string → list string
    → runtime_ServeMux * option error;
  gateway_ServeHTTP : runtime_ServeMux → http.Handler;
  grpcServer_ServeHTTP : grpc.Server_ → http.Handler;
}.
Context `{Environment}.

(** Creates a new gRPC Server with all the configuration. *)
Definition newGRPCServer (ctx : context_Context) (cfg : ServerConfig)
    (authContext : option auth.Context) (opts : list grpc.ServerOption)
    : exec (option grpc.Server_ * option error) :=
  let chainedUnaryInterceptors :=
    if UseAuth (Security cfg) then
      grpc.ChainUnaryServer
        [grpc.grpc_prometheus_UnaryServerInterceptor;
         grpc.grpcauth_UnaryServerInterceptor (GetAuthenticationInterceptor authContext);
         AuthenticationLoggingInterceptor]
    else
      grpc.ChainUnaryServer [grpc.grpc_prometheus_UnaryServerInterceptor] in
  let serverOpts :=
    [grpc.StreamInterceptor grpc.grpc_prometheus_StreamServerInterceptor;
     grpc.UnaryInterceptor chainedUnaryInterceptors] in
  let serverOpts := serverOpts ++ opts in
  go! grpcServer ← grpc.NewServer serverOpts;
  let grpcServer := grpc.RegisterService grpcServer "flyteidl.service.AdminService" in
  Returns (Some grpcServer, None).

(** Landing page for easier testing. *)
Definition htmlIndex : string :=
  let nl := String (ascii_of_N 10) "" in
  let tab := String (ascii_of_N 9) "" in
  let quote := String url.doubleQuote "" in
  "<html>" +:+ nl +:+
  "<body>" +:+ nl +:+
  tab +:+ "<a href=" +:+ quote +:+ "/login" +:+ quote +:+ ">Okta Log In</a>" +:+ nl +:+
  "</body>" +:+ nl +:+
  "</html>".

Definition loginPage : http.Handler :=
  λ w _, http.Write w htmlIndex.

Definition GetHandleOpenapiSpec (ctx : context_Context) : http.Handler :=
  λ w r,
    match flyteService_Asset "admin.swagger.json" with
    | Err _ => http.WriteHeader w http.StatusFailedDependency
    | Ok swaggerBytes =>
        let w := http.WriteHeader w http.StatusOK in
        http.Write w swaggerBytes
    end.

Definition healthcheck : http.Handler :=
  λ w r, http.WriteHeader w http.StatusOK.

Definition newHTTPServer (ctx : context_Context) (cfg : ServerConfig)
    (authContext : option auth.Context) (grpcAddress : string)
    (grpcConnectionOpts : list string)
    : exec (option http.ServeMux * option error) :=
  (* Register the server that will serve HTTP/REST Traffic *)
  let mux := http.NewServeMux in
  (* Register healthcheck *)
  go! mux ← http.Handle mux "/healthcheck" healthcheck;
  (* Register OpenAPI endpoint *)
  go! mux ← http.Handle mux "/api/v1/openapi" (GetHandleOpenapiSpec ctx);
  (* Register the actual Server that will service gRPC traffic *)
  go! '(mux, gwmux) ←
    (if UseAuth (Security cfg) then
       (* Add HTTP handlers for OAuth2 endpoints *)
       go! mux ← http.Handle mux "/login_page" loginPage;
       go! mux ← http.Handle mux "/login"
                   (RefreshTokensIfExists ctx authContext
                      (GetLoginHandler ctx authContext));
       go! mux ← http.Handle mux "/callback" (GetCallbackHandler ctx authContext);
       Returns (mux,
                runtime_NewServeMux
                  [WithMarshalerOption "application/octet-stream" "ProtoMarshaller";
                   WithMetadata (GetHttpRequestCookieToMetadataHandler authContext)])
     else
       Returns (mux,
                runtime_NewServeMux
                  [WithMarshalerOption "application/octet-stream" "ProtoMarshaller"]));
  let '(gwmux, err) :=
    RegisterAdminServiceHandlerFromEndpoint ctx gwmux grpcAddress grpcConnectionOpts in
  match err with
  | Some err =>
      Returns (None, Some (errors.withMessage "error registering admin service" err))
  | None =>
      go! mux ← http.Handle mux "/" (gateway_ServeHTTP gwmux);
      Returns (Some mux, None)
  end.

(** grpcHandlerFunc returns an http.Handler that delegates to grpcServer on
    incoming gRPC connections or otherHandler otherwise. *)
Definition grpcHandlerFunc (grpcServer : grpc.Server_) (otherHandler : http.Handler)
    : http.Handler :=
  λ w r,
    (* This is a partial recreation of gRPC's internal checks *)
    if (http.ProtoMajor r =? 2)%Z
       && strings.Contains (http.Get (http.Header_ r) "Content-Type") "application/grpc"
    then grpcServer_ServeHTTP grpcServer w r
    else otherHandler w r.

End entrypoints.
End entrypoints.

(** ** The data of a workflow launch

  The protobuf messages of flyteidl ([core], [admin]), the resource sets
  of the runtime configuration, and the fields of flytepropeller's
  [v1alpha1.FlyteWorkflow] that the preparation writes. *)

(** [resource.Quantity] of Kubernetes, through the one method the code
  calls and its zero value. *)
Class QuantityOps : Type := {
Quantity : Type;
IsZero : Quantity → bool;
zeroQuantity : Quantity;
}.

(** A Go [map[string]string]; [None] is the nil map. *)
Definition stringMap : Type := option (gmap string string).

Module core.

Record WorkflowExecutionIdentifier : Type := mkWorkflowExecutionIdentifier {
  Project : string;
  Domain : string;
  Name : string;
}.


(** [core.SimpleType]. *)
Inductive SimpleType : Type :=
| NONE | INTEGER | FLOAT | STRING | BOOLEAN | DATETIME | DURATION | BINARY
| ERROR | STRUCT.

Definition SimpleType_eqb (a b : SimpleType) : bool :=
  match a, b with
  | NONE, NONE | INTEGER, INTEGER | FLOAT, FLOAT | STRING, STRING
  | BOOLEAN, BOOLEAN | DATETIME, DATETIME | DURATION, DURATION
  | BINARY, BINARY | ERROR, ERROR | STRUCT, STRUCT => true
  | _, _ => false
  end.

(** [core.LiteralType], by its [oneof]: unset, a simple type, or one of
    the other kinds (schema, collection, map, blob, ...), which this code
    never looks into. *)
Inductive LiteralType : Type :=
| LiteralType_unset
| LiteralType_Simple (simple : SimpleType)
| LiteralType_other (kind : string).

Record Variable_ : Type := mkVariable {
  Type_ : option LiteralType;
  Description : string;
}.

(** A [core.Literal], which this code stores and never inspects. *)
Inductive Literal : Type := mkLiteral (repr : string).

(** The [oneof] behavior of a [core.Parameter]. *)
Inductive isParameter_Behavior : Type :=
| Parameter_Default (value : option Literal)
| Parameter_Required (required : bool).

Record Parameter_ : Type := mkParameter {
  Var : option Variable_;
  Behavior : option isParameter_Behavior;
}.

Record ParameterMapFieldEntry : Type := mkParameterMapFieldEntry {
  ParameterMapFieldEntry_Key : string;
  ParameterMapFieldEntry_Value : option Parameter_;
}.

Record ParameterMap : Type := mkParameterMap {
  Parameters : list (option ParameterMapFieldEntry);
}.

Record VariableMapFieldEntry : Type := mkVariableMapFieldEntry {
  VariableMapFieldEntry_Key : string;
  VariableMapFieldEntry_Value : option Variable_;
}.

(** The generated getters: each returns the zero value on a nil receiver. *)
Definition ParameterMapFieldEntry_GetKey (x : option ParameterMapFieldEntry) : string :=
  match x with Some x => ParameterMapFieldEntry_Key x | None => "" end.

Definition ParameterMapFieldEntry_GetValue (x : option ParameterMapFieldEntry)
    : option Parameter_ :=
  match x with Some x => ParameterMapFieldEntry_Value x | None => None end.

Definition VariableMapFieldEntry_GetKey (x : option VariableMapFieldEntry) : string :=
  match x with Some x => VariableMapFieldEntry_Key x | None => "" end.

Definition VariableMapFieldEntry_GetValue (x : option VariableMapFieldEntry)
    : option Variable_ :=
  match x with Some x => VariableMapFieldEntry_Value x | None => None end.

Definition Parameter_GetRequired (x : option Parameter_) : bool :=
  match x with
  | Some x =>
      match Behavior x with
      | Some (Parameter_Required required) => required
      | _ => false
      end
  | None => false
  end.

Definition Parameter_GetVar (x : option Parameter_) : option Variable_ :=
  match x with Some x => Var x | None => None end.

Definition Variable_GetType (x : option Variable_) : option LiteralType :=
  match x with Some x => Type_ x | None => None end.

Definition LiteralType_GetSimple (x : option LiteralType) : SimpleType :=
  match x with
  | Some (LiteralType_Simple simple) => simple
  | _ => NONE
  end.

End core.

Module admin.

Record AuthRole : Type := mkAuthRole {
  AssumableIamRole : string;
  KubernetesServiceAccount : string;
}.

Record PluginOverride : Type := mkPluginOverride {
  TaskType : string;
  PluginId : list string;
  MissingPluginBehavior : Z;
}.

(** [MaxParallelism] is an [int32]. *)
Record WorkflowExecutionConfig : Type := mkWorkflowExecutionConfig {
  MaxParallelism : Z;
}.

Record RawOutputDataConfig : Type := mkRawOutputDataConfig {
  OutputLocationPrefix : string;
}.


Record FixedRate : Type := mkFixedRate {
  FixedRate_Value : Z;
  FixedRate_Unit : Z;
}.

Record CronSchedule : Type := mkCronSchedule {
  CronSchedule_Schedule : string;
  CronSchedule_Offset : string;
}.

(** The [oneof] schedule expression of an [admin.Schedule]. *)
Inductive isSchedule_ScheduleExpression : Type :=
| Schedule_CronExpression (cronExpression : string)
| Schedule_Rate (rate : option FixedRate)
| Schedule_CronSchedule (cronSchedule : option CronSchedule).

Record Schedule : Type := mkSchedule {
  ScheduleExpression : option isSchedule_ScheduleExpression;
  KickoffTimeInputArg : string;
}.

Record LaunchPlanMetadata : Type := mkLaunchPlanMetadata {
  Schedule_ : option Schedule;
}.

(** The fields of [admin.LaunchPlanSpec] that the schedule validation
    reads. *)
Record LaunchPlanSpec : Type := mkLaunchPlanSpec {
  EntityMetadata : option LaunchPlanMetadata;
  DefaultInputs : option core.ParameterMap;
}.

Record LaunchPlanCreateRequest : Type := mkLaunchPlanCreateRequest {
  Spec : option LaunchPlanSpec;
}.

(** The generated getters: each returns the zero value on a nil receiver. *)
Definition LaunchPlanCreateRequest_GetSpec (x : LaunchPlanCreateRequest)
    : option LaunchPlanSpec := Spec x.

Definition LaunchPlanSpec_GetEntityMetadata (x : option LaunchPlanSpec)
    : option LaunchPlanMetadata :=
  match x with Some x => EntityMetadata x | None => None end.

Definition LaunchPlanMetadata_GetSchedule (x : option LaunchPlanMetadata)
    : option Schedule :=
  match x with Some x => Schedule_ x | None => None end.

Definition Schedule_GetCronExpression (x : option Schedule) : string :=
  match x with
  | Some x =>
      match ScheduleExpression x with
      | Some (Schedule_CronExpression cronExpression) => cronExpression
      | _ => ""
      end
  | None => ""
  end.

Definition Schedule_GetRate (x : option Schedule) : option FixedRate :=
  match x with
  | Some x =>
      match ScheduleExpression x with
      | Some (Schedule_Rate rate) => rate
      | _ => None
      end
  | None => None
  end.

Definition Schedule_GetKickoffTimeInputArg (x : option Schedule) : string :=
  match x with Some x => KickoffTimeInputArg x | None => "" end.

End admin.

Module runtime.
Section runtime.
Context `{QuantityOps}.

Record TaskResourceSet : Type := mkTaskResourceSet {
  CPU : Quantity;
  GPU : Quantity;
  Memory : Quantity;
  Storage : Quantity;
  EphemeralStorage : Quantity;
}.

End runtime.
End runtime.

Module v1alpha1.
Section v1alpha1.
Context `{QuantityOps}.

Record TaskPluginOverride : Type := mkTaskPluginOverride {
  PluginIDs : list string;
  MissingPluginBehavior : Z;
}.

Record TaskResourceSpec : Type := mkTaskResourceSpec {
  CPU : Quantity;
  Memory : Quantity;
  EphemeralStorage : Quantity;
  Storage : Quantity;
  GPU : Quantity;
}.

(** The zero value [v1alpha1.TaskResourceSpec{}]. *)
Definition zeroTaskResourceSpec : TaskResourceSpec :=
  mkTaskResourceSpec zeroQuantity zeroQuantity zeroQuantity zeroQuantity zeroQuantity.

Record TaskResources : Type := mkTaskResources {
  Requests : TaskResourceSpec;
  Limits : TaskResourceSpec;
}.

(** [MaxParallelism] is a [uint32]. *)
Record ExecutionConfig : Type := mkExecutionConfig {
  TaskPluginImpls : option (gmap string TaskPluginOverride);
  TaskResources_ : TaskResources;
  MaxParallelism : Z;
  RecoveryExecution : option core.WorkflowExecutionIdentifier;
}.

Record WorkflowMeta : Type := mkWorkflowMeta {
  EventVersion : Z;
}.

Record FlyteWorkflow : Type := mkFlyteWorkflow {
  Labels : stringMap;
  Annotations : stringMap;
  WorkflowMeta_ : option WorkflowMeta;
  AcceptedAt : option Z;
  ServiceAccountName : string;
  ExecutionID : option core.WorkflowExecutionIdentifier;
  ExecutionConfig_ : ExecutionConfig;
  RawOutputDataConfig : option admin.RawOutputDataConfig;
}.

End v1alpha1.
End v1alpha1.

(** ** Package [executions]: preparing a workflow object for launch *)

Module executions.
Section executions.
Context `{QuantityOps}.

Record TaskResources : Type := mkTaskResources {
  Defaults : runtime.TaskResourceSet;
  Limits : runtime.TaskResourceSet;
}.

Record PrepareFlyteWorkflowInput : Type := mkPrepareFlyteWorkflowInput {
  ExecutionID : option core.WorkflowExecutionIdentifier;
  AcceptedAt : Z;
  Labels : stringMap;
  Annotations : stringMap;
  TaskPluginOverrides : list (option admin.PluginOverride);
  ExecutionConfig : option admin.WorkflowExecutionConfig;
  Auth : option admin.AuthRole;
  RecoveryExecution : option core.WorkflowExecutionIdentifier;
  TaskResources_ : option TaskResources;
  EventVersion : Z;
  RoleNameKey : string;
  RawOutputDataConfig : option admin.RawOutputDataConfig;
}.

Definition addMapValues (overrides defaultValues : stringMap) : stringMap :=
  let defaultValues :=
    match defaultValues with
    | None => Some ∅
    | Some m => Some m
    end in
  match overrides with
  | None => defaultValues
  | Some overrides =>
      Some (map_fold (λ label value (acc : gmap string string), <[label := value]> acc)
                     (default ∅ defaultValues) overrides)
  end.

(** The field updates of a [v1alpha1.FlyteWorkflow]. *)
Definition set_Labels (wf : v1alpha1.FlyteWorkflow) (v : stringMap) :=
  v1alpha1.mkFlyteWorkflow v (v1alpha1.Annotations wf) (v1alpha1.WorkflowMeta_ wf)
    (v1alpha1.AcceptedAt wf) (v1alpha1.ServiceAccountName wf) (v1alpha1.ExecutionID wf)
    (v1alpha1.ExecutionConfig_ wf) (v1alpha1.RawOutputDataConfig wf).
Definition set_Annotations (wf : v1alpha1.FlyteWorkflow) (v : stringMap) :=
  v1alpha1.mkFlyteWorkflow (v1alpha1.Labels wf) v (v1alpha1.WorkflowMeta_ wf)
    (v1alpha1.AcceptedAt wf) (v1alpha1.ServiceAccountName wf) (v1alpha1.ExecutionID wf)
    (v1alpha1.ExecutionConfig_ wf) (v1alpha1.RawOutputDataConfig wf).
Definition set_WorkflowMeta (wf : v1alpha1.FlyteWorkflow) (v : option v1alpha1.WorkflowMeta) :=
  v1alpha1.mkFlyteWorkflow (v1alpha1.Labels wf) (v1alpha1.Annotations wf) v
    (v1alpha1.AcceptedAt wf) (v1alpha1.ServiceAccountName wf) (v1alpha1.ExecutionID wf)
    (v1alpha1.ExecutionConfig_ wf) (v1alpha1.RawOutputDataConfig wf).
Definition set_AcceptedAt (wf : v1alpha1.FlyteWorkflow) (v : option Z) :=
  v1alpha1.mkFlyteWorkflow (v1alpha1.Labels wf) (v1alpha1.Annotations wf)
    (v1alpha1.WorkflowMeta_ wf) v (v1alpha1.ServiceAccountName wf)
    (v1alpha1.ExecutionID wf) (v1alpha1.ExecutionConfig_ wf)
    (v1alpha1.RawOutputDataConfig wf).
Definition set_ServiceAccountName (wf : v1alpha1.FlyteWorkflow) (v : string) :=
  v1alpha1.mkFlyteWorkflow (v1alpha1.Labels wf) (v1alpha1.Annotations wf)
    (v1alpha1.WorkflowMeta_ wf) (v1alpha1.AcceptedAt wf) v (v1alpha1.ExecutionID wf)
    (v1alpha1.ExecutionConfig_ wf) (v1alpha1.RawOutputDataConfig wf).
Definition set_ExecutionID (wf : v1alpha1.FlyteWorkflow)
    (v : option core.WorkflowExecutionIdentifier) :=
  v1alpha1.mkFlyteWorkflow (v1alpha1.Labels wf) (v1alpha1.Annotations wf)
    (v1alpha1.WorkflowMeta_ wf) (v1alpha1.AcceptedAt wf)
    (v1alpha1.ServiceAccountName wf) v (v1alpha1.ExecutionConfig_ wf)
    (v1alpha1.RawOutputDataConfig wf).
Definition set_ExecutionConfig (wf : v1alpha1.FlyteWorkflow)
    (v : v1alpha1.ExecutionConfig) :=
  v1alpha1.mkFlyteWorkflow (v1alpha1.Labels wf) (v1alpha1.Annotations wf)
    (v1alpha1.WorkflowMeta_ wf) (v1alpha1.AcceptedAt wf)
    (v1alpha1.ServiceAccountName wf) (v1alpha1.ExecutionID wf) v
    (v1alpha1.RawOutputDataConfig wf).
Definition set_RawOutputDataConfig (wf : v1alpha1.FlyteWorkflow)
    (v : option admin.RawOutputDataConfig) :=
  v1alpha1.mkFlyteWorkflow (v1alpha1.Labels wf) (v1alpha1.Annotations wf)
    (v1alpha1.WorkflowMeta_ wf) (v1alpha1.AcceptedAt wf)
    (v1alpha1.ServiceAccountName wf) (v1alpha1.ExecutionID wf)
    (v1alpha1.ExecutionConfig_ wf) v.

(** Set role permissions based on launch plan Auth values. *)
Definition addPermissions (auth : option admin.AuthRole) (roleNameKey : string)
    (flyteWf : v1alpha1.FlyteWorkflow) : v1alpha1.FlyteWorkflow :=
  match auth with
  | None => flyteWf
  | Some auth =>
      let flyteWf :=
        if (0 <? String.length (admin.AssumableIamRole auth))%nat then
          let annotations := default ∅ (v1alpha1.Annotations flyteWf) in
          set_Annotations flyteWf
            (Some (<[roleNameKey := admin.AssumableIamRole auth]> annotations))
        else flyteWf in
      if (0 <? String.length (admin.KubernetesServiceAccount auth))%nat then
        set_ServiceAccountName flyteWf (admin.KubernetesServiceAccount auth)
      else flyteWf
  end.

(** The conversion [uint32(x)] of an [int32]. *)
Definition uint32 (x : Z) : Z := x mod 2 ^ 32.

(** One resource set copied field by field, skipping zero quantities. *)
Definition copyNonZero (src : runtime.TaskResourceSet) : v1alpha1.TaskResourceSpec :=
  let keep (q : Quantity) := if negb (IsZero q) then q else zeroQuantity in
  v1alpha1.mkTaskResourceSpec
    (keep (runtime.CPU src)) (keep (runtime.Memory src))
    (keep (runtime.EphemeralStorage src)) (keep (runtime.Storage src))
    (keep (runtime.GPU src)).

(** One turn of the loop over the plugin overrides: the entry is
    dereferenced and stored under its task type. *)
Definition collectOverride
    (acc : exec (gmap string v1alpha1.TaskPluginOverride))
    (override : option admin.PluginOverride)
    : exec (gmap string v1alpha1.TaskPluginOverride) :=
  go! impls ← acc;
  match override with
  | None => Panics "invalid memory address or nil pointer dereference"
  | Some override =>
      Returns (<[admin.TaskType override :=
                   v1alpha1.mkTaskPluginOverride (admin.PluginId override)
                     (admin.MissingPluginBehavior override)]> impls)
  end.

Definition addExecutionOverrides
    (taskPluginOverrides : list (option admin.PluginOverride))
    (workflowExecutionConfig : option admin.WorkflowExecutionConfig)
    (recoveryExecution : option core.WorkflowExecutionIdentifier)
    (taskResources : option TaskResources)
    (flyteWf : v1alpha1.FlyteWorkflow) : exec v1alpha1.FlyteWorkflow :=
  go! impls ← foldl collectOverride (Returns ∅) taskPluginOverrides;
  let maxParallelism :=
    match workflowExecutionConfig with
    | Some cfg => uint32 (admin.MaxParallelism cfg)
    | None => 0%Z
    end in
  let resources :=
    match taskResources with
    | Some taskResources =>
        v1alpha1.mkTaskResources (copyNonZero (Defaults taskResources))
                                 (copyNonZero (Limits taskResources))
    | None =>
        v1alpha1.mkTaskResources v1alpha1.zeroTaskResourceSpec
                                 v1alpha1.zeroTaskResourceSpec
    end in
  Returns (set_ExecutionConfig flyteWf
             (v1alpha1.mkExecutionConfig (Some impls) resources maxParallelism
                                         recoveryExecution)).

(** [PrepareFlyteWorkflow(input, flyteWorkflow)]: the returned error and
    the object [flyteWorkflow] points to after the call ([None] for a nil
    pointer). *)
Definition PrepareFlyteWorkflow (input : PrepareFlyteWorkflowInput)
    (flyteWorkflow : option v1alpha1.FlyteWorkflow)
    : exec (option error * option v1alpha1.FlyteWorkflow) :=
  match ExecutionID input with
  | None =>
      Returns (Some (errors.NewFlyteAdminErrorf errors.codes_Internal
                       "invalid execution id"),
               flyteWorkflow)
  | Some executionID =>
  match flyteWorkflow with
  | None =>
      Returns (Some (errors.NewFlyteAdminErrorf errors.codes_Internal
                       "missing Flyte Workflow "),
               flyteWorkflow)
  | Some wf =>
      (* add the executionId so Propeller can send events back *)
      let wf := set_ExecutionID wf (Some executionID) in
      (* add the acceptedAt timestamp so propeller can emit latency metrics *)
      let wf := set_AcceptedAt wf (Some (AcceptedAt input)) in
      let wf := addPermissions (Auth input) (RoleNameKey input) wf in
      let labels := addMapValues (Labels input) (v1alpha1.Labels wf) in
      let wf := set_Labels wf labels in
      let annotations := addMapValues (Annotations input) (v1alpha1.Annotations wf) in
      let wf := set_Annotations wf annotations in
      let wf :=
        match v1alpha1.WorkflowMeta_ wf with
        | None => set_WorkflowMeta wf (Some (v1alpha1.mkWorkflowMeta 0))
        | Some _ => wf
        end in
      let wf := set_WorkflowMeta wf (Some (v1alpha1.mkWorkflowMeta (EventVersion input))) in
      go! wf ← addExecutionOverrides (TaskPluginOverrides input) (ExecutionConfig input)
                 (RecoveryExecution input) (TaskResources_ input) wf;
      let wf :=
        match RawOutputDataConfig input with
        | Some cfg => set_RawOutputDataConfig wf (Some cfg)
        | None => wf
        end in
      Returns (None, Some wf)
  end
  end.

End executions.
End executions.

(** ** Package [validation]: launch plan schedules

    [validateSchedule] and the two conversions of entry lists to maps.
    [checkAndFetchExpectedInputForLaunchPlan] indexes slices of entries by
    name, which Go does not type, and [ValidateLaunchPlan] rests on it and
    on validators defined elsewhere; neither is modelled. *)

(** The rendering of a literal type by the verb [%v]. *)
Class Printing : Type := {
  sprint_LiteralType : option core.LiteralType → string;
}.

Module validation.
Section validation.
Context `{Printing}.

Definition ParameterMapEntriesToMap (entries : list (option core.ParameterMapFieldEntry))
    : gmap string (option core.Parameter_) :=
  foldl (λ parameterMap v,
           <[core.ParameterMapFieldEntry_GetKey v :=
               core.ParameterMapFieldEntry_GetValue v]> parameterMap)
        ∅ entries.

Definition VariableMapEntriesToMap (entries : list (option core.VariableMapFieldEntry))
    : gmap string (option core.Variable_) :=
  foldl (λ variableMap v,
           <[core.VariableMapFieldEntry_GetKey v :=
               core.VariableMapFieldEntry_GetValue v]> variableMap)
        ∅ entries.

(** The first loop of [validateSchedule]: the first entry that is required
    and is not the kickoff-time argument, if there is one. *)
Fixpoint firstUnboundRequired (kickoffTimeInputArg : string)
    (entries : list (option core.ParameterMapFieldEntry))
    : option (option core.ParameterMapFieldEntry) :=
  match entries with
  | [] => None
  | e :: rest =>
      if core.Parameter_GetRequired (core.ParameterMapFieldEntry_GetValue e)
         && negb (String.eqb (core.ParameterMapFieldEntry_GetKey e) kickoffTimeInputArg)
      then Some e
      else firstUnboundRequired kickoffTimeInputArg rest
  end.

Definition validateSchedule (request : admin.LaunchPlanCreateRequest)
    (expectedInputs : option core.ParameterMap) : exec (option error) :=
  let schedule :=
    admin.LaunchPlanMetadata_GetSchedule
      (admin.LaunchPlanSpec_GetEntityMetadata
         (admin.LaunchPlanCreateRequest_GetSpec request)) in
  let kickoff := admin.Schedule_GetKickoffTimeInputArg schedule in
  if negb (String.eqb (admin.Schedule_GetCronExpression schedule) "")
     || bool_decide (is_Some (admin.Schedule_GetRate schedule))
  then
    match expectedInputs with
    | None => Panics "invalid memory address or nil pointer dereference"
    | Some expectedInputs =>
        match firstUnboundRequired kickoff (core.Parameters expectedInputs) with
        | Some e =>
            Returns (Some (errors.NewFlyteAdminErrorf errors.codes_InvalidArgument
              ("Cannot create a launch plan with a schedule if there is an unbound required input. ["
               +:+ core.ParameterMapFieldEntry_GetKey e +:+ "] is required")))
        | None =>
            if negb (String.eqb kickoff "") then
              match ParameterMapEntriesToMap (core.Parameters expectedInputs) !! kickoff with
              | None =>
                  Returns (Some (errors.NewFlyteAdminErrorf errors.codes_InvalidArgument
                    ("Cannot create a schedule with a KickoffTimeInputArg that does not point to a free input. ["
                     +:+ kickoff +:+ "] is not free or does not exist.")))
              | Some param =>
                  if negb (core.SimpleType_eqb
                             (core.LiteralType_GetSimple
                                (core.Variable_GetType (core.Parameter_GetVar param)))
                             core.DATETIME)
                  then
                    Returns (Some (errors.NewFlyteAdminErrorf errors.codes_InvalidArgument
                      ("KickoffTimeInputArg must reference a datetime input. ["
                       +:+ kickoff +:+ "] is a ["
                       +:+ sprint_LiteralType
                             (core.Variable_GetType (core.Parameter_GetVar param))
                       +:+ "]")))
                  else Returns None
              end
            else Returns None
        end
    end
  else Returns None.

End validation.
End validation.

(** ** Concrete collaborators

    A small concrete world, used to run the definitions above on explicit
    inputs: contexts carry the caller's name, a cookie manager is its pair
    of keys, a provider its issuer. *)

Definition demoCollaborators : Collaborators := {|
  context_Context := string;
  CookieHandler := string * string;
  oidc_Provider := string;
  OAuth2Provider := unit;
  OAuth2ResourceServer := unit;
  OAuth2MetadataProvider := unit;
  OIdCUserInfoProvider := unit;
  grpc_request := string;
  grpc_response := string;
  runtime_ServeMux := list string;
|}.

(** An interceptor that rejects every call as unauthenticated. *)
Definition rejectAll : @auth.AuthFunc demoCollaborators :=
  λ ctx, (ctx, Some (errors.statusError errors.codes_Unauthenticated "no token")).

(** An interceptor that accepts every call and records the identity. *)
Definition acceptAll : @auth.AuthFunc demoCollaborators :=
  λ ctx, (ctx +:+ "+identity", None).


(** The descriptor of the running example: registered for host [a.example]. *)
Definition demoDescriptor : oauth2.Config :=
  oauth2.mkConfig "flyte-client" "s3cr3t"
    (oauth2.mkEndpoint "https://idp.example/authorize" "https://idp.example/token")
    "https://a.example/callback" ["openid"; "profile"].

Definition demoContext : @auth.Context demoCollaborators :=
  auth.mkContext (Some 0) None None None None None None None None None None.

Definition hostA : url.URL := url.mkURL "https" "" None "a.example" "/console" false "" "".
Definition hostB : url.URL := url.mkURL "https" "" None "b.example" "/console" false "page=2" "".

(** A secret manager backed by a table of secrets. *)
Definition tableSecretManager (secrets : gmap string string)
    : @auth.SecretManager demoCollaborators :=
  auth.mkSecretManager
    (λ _ name,
       match secrets !! name with
       | Some v => Ok v
       | None => Err (errors.errorString ("secret not found: " +:+ name))
       end).

(** The secrets of a complete deployment. *)
Definition demoSecrets : gmap string string :=
  {[ "cookie_hash_key" := "aGFzaA==";
     "cookie_block_key" := "YmxvY2s=";
     "oidc_client_secret" := "s3cr3t" +:+ newline ]}.

(** A deployment in which the block key was never provisioned. *)
Definition secretsWithoutBlockKey : gmap string string :=
  delete "cookie_block_key" demoSecrets.

(** The external functions, on a machine whose only file is the
    deprecated client-secret file. *)
Definition demoEnvironment : @auth.Environment demoCollaborators :=
  @auth.Build_Environment demoCollaborators
    (* NewCookieManager *)
    (λ _ hashKey blockKey,
       if String.eqb hashKey "" || String.eqb blockKey ""
       then Err (errors.errorString "illegal base64 data")
       else Ok (hashKey, blockKey))
    (* oidc.NewProvider *)
    (λ _ _ issuer,
       if strings.HasPrefix issuer "https://"
       then Ok issuer
       else Err (errors.errorString "unsupported protocol scheme"))
    (* provider.Endpoint *)
    (λ issuer, oauth2.mkEndpoint (issuer +:+ "/authorize") (issuer +:+ "/token"))
    (* url.Parse *)
    (λ raw,
       if strings.HasPrefix raw "/" then Ok (url.absPath raw)
       else Err (errors.errorString "invalid URI for request"))
    (* ioutil.ReadFile *)
    (λ path,
       if String.eqb path "/etc/secrets/client_secret"
       then Ok ("s3cr3t" +:+ newline)
       else Err (errors.errorString ("open " +:+ path +:+ ": no such file or directory")))
    (* GetAuthenticationInterceptor *)
    (λ _, rejectAll)
    "/oauth2/metadata"
    "/.well-known/openid-configuration".

Definition demoOpenID : config.OpenIDOptions :=
  config.mkOpenIDOptions "flyte-client" "oidc_client_secret" ""
    (url.mkURL "https" "" None "idp.example" "" false "" "")
    ["openid"; "profile"].

(** The same options with the deprecated client-secret file set. *)
Definition deprecatedOpenID : config.OpenIDOptions :=
  config.mkOpenIDOptions "flyte-client" "oidc_client_secret" "/etc/secrets/client_secret"
    (url.mkURL "https" "" None "idp.example" "" false "" "")
    ["openid"; "profile"].

Definition demoOptions : config.Config :=
  config.mkConfig (url.mkURL "https" "" None "a.example" "" false "" "")
    (config.mkUserAuthConfig "cookie_hash_key" "cookie_block_key" demoOpenID).

(** The functions [serve.go] calls, on a gateway whose handlers answer
    with fixed pages and whose authentication rejects every call. *)
Definition demoEntrypoints : @entrypoints.Environment demoCollaborators :=
  @entrypoints.Build_Environment demoCollaborators
    (* GetAuthenticationInterceptor *)
    (λ _, rejectAll)
    (* AuthenticationLoggingInterceptor *)
    (λ ctx req info handler,
       grpc.bind (grpc.emit (grpc.HandlerEvent "authentication log"))
                 (λ _, handler ctx req))
    (* RefreshTokensIfExists *)
    (λ _ _ next, next)
    (* GetLoginHandler *)
    (λ _ _ w _, http.Write (http.WriteHeader w 307) "to the identity provider")
    (* GetCallbackHandler *)
    (λ _ _ w _, http.Write (http.WriteHeader w 307) "to the console")
    (* GetHttpRequestCookieToMetadataHandler *)
    (λ _ _, [])
    (* flyteService.Asset *)
    (λ _, Ok "{}")
    (* runtime.NewServeMux *)
    (λ _, [])
    (* RegisterAdminServiceHandlerFromEndpoint *)
    (λ _ gwmux endpoint _,
       if String.eqb endpoint ""
       then (gwmux, Some (errors.errorString "missing address"))
       else (gwmux ++ ["/api/v1/projects"], None))
    (* gwmux.ServeHTTP *)
    (λ _ w _, http.Write w "proxied to the admin service")
    (* grpcServer.ServeHTTP *)
    (λ _ w _, http.Write w "served by gRPC").

Definition withAuth : entrypoints.ServerConfig :=
  entrypoints.mkServerConfig (entrypoints.mkSecurityConfig true true) "" "".

Definition withoutAuth : entrypoints.ServerConfig :=
  entrypoints.mkServerConfig (entrypoints.mkSecurityConfig false false) "" "".

(** A business method that answers every request. *)
Definition echoHandler : @grpc.UnaryHandler demoCollaborators :=
  λ ctx req, ((Some ("echo " +:+ req), None), [grpc.HandlerEvent "business method"]).

Definition getProject : @grpc.UnaryServerInfo demoCollaborators :=
  grpc.mkUnaryServerInfo None "/flyteidl.service.AdminService/GetProject".

(** ** The routes of the HTTP server, as the specification lists them *)

Definition exposedRoutes : list string :=
  ["/login"; "/callback"; "/login_page"; "/healthcheck"; "/api/v1/openapi"; "/"].

(** [exposesAllRoutes mux]: a handler is registered for each route. *)
Definition exposesAllRoutes (mux : http.ServeMux) : Prop :=
  ∀ route, route ∈ exposedRoutes → is_Some (mux !! route).

(** Quantities as plain amounts. *)
Definition amountQuantity : QuantityOps := {|
  Quantity := Z;
  IsZero := λ q, (q =? 0)%Z;
  zeroQuantity := 0%Z;
|}.

Definition emptyWorkflow : @v1alpha1.FlyteWorkflow amountQuantity :=
  v1alpha1.mkFlyteWorkflow None None None None "" None
    (v1alpha1.mkExecutionConfig None
       (v1alpha1.mkTaskResources v1alpha1.zeroTaskResourceSpec
                                 v1alpha1.zeroTaskResourceSpec)
       0 None)
    None.

Definition demoExecution : core.WorkflowExecutionIdentifier :=
  core.mkWorkflowExecutionIdentifier "flytesnacks" "development" "f3a1".

(** A launch with one plugin override and labels. *)
Definition demoLaunch : @executions.PrepareFlyteWorkflowInput amountQuantity :=
  executions.mkPrepareFlyteWorkflowInput (Some demoExecution) 1700000000
    (Some {[ "team" := "ml" ]}) None
    [Some (admin.mkPluginOverride "python" ["container"] 0)]
    (Some (admin.mkWorkflowExecutionConfig 25))
    (Some (admin.mkAuthRole "arn:aws:iam::role/flyte" ""))
    None None 1 "iam.amazonaws.com/role" None.

(** The same launch, with a nil entry among the plugin overrides. *)
Definition launchWithNilOverride : @executions.PrepareFlyteWorkflowInput amountQuantity :=
  executions.mkPrepareFlyteWorkflowInput (Some demoExecution) 1700000000
    (Some {[ "team" := "ml" ]}) None
    [Some (admin.mkPluginOverride "python" ["container"] 0); None]
    (Some (admin.mkWorkflowExecutionConfig 25))
    (Some (admin.mkAuthRole "arn:aws:iam::role/flyte" ""))
    None None 1 "iam.amazonaws.com/role" None.



(** Literal types printed by their kind. *)
Definition kindPrinting : Printing := {|
  sprint_LiteralType := λ t,
    match t with
    | Some (core.LiteralType_Simple _) => "simple"
    | Some (core.LiteralType_other kind) => kind
    | _ => "<nil>"
    end;
|}.

Definition datetimeParameter (required : bool) : core.Parameter_ :=
  core.mkParameter
    (Some (core.mkVariable (Some (core.LiteralType_Simple core.DATETIME)) ""))
    (Some (core.Parameter_Required required)).

(** The inputs of a scheduled launch plan: the kickoff time, required, and
    an optional region. *)
Definition scheduledInputs : core.ParameterMap :=
  core.mkParameterMap
    [Some (core.mkParameterMapFieldEntry "kickoff_time" (Some (datetimeParameter true)));
     Some (core.mkParameterMapFieldEntry "region"
             (Some (core.mkParameter
                      (Some (core.mkVariable (Some (core.LiteralType_Simple core.STRING)) ""))
                      (Some (core.Parameter_Default (Some (core.mkLiteral "eu")))))))].

(** A request scheduled daily, with the kickoff-time argument named. *)
Definition dailyRequest : admin.LaunchPlanCreateRequest :=
  admin.mkLaunchPlanCreateRequest
    (Some (admin.mkLaunchPlanSpec
             (Some (admin.mkLaunchPlanMetadata
                      (Some (admin.mkSchedule
                               (Some (admin.Schedule_CronExpression "0 0 * * *"))
                               "kickoff_time"))))
             None)).

(** A request without schedule. *)
Definition unscheduledRequest : admin.LaunchPlanCreateRequest :=
  admin.mkLaunchPlanCreateRequest (Some (admin.mkLaunchPlanSpec None None)).

(** ** The steps of the context construction, as the specification lists them *)

Inductive setupStep : Type :=
| HashKeyFetch
| BlockKeyFetch
| CookieManagerConstruction
| OidcDiscovery
| OAuth2ConfigConstruction
| OAuth2MetadataURLParsing
| OidcMetadataURLParsing.

(** The error code the specification gives to a failure of each step:
    [CONFIG_OPTION_FILE_READ_FAILED] for the two secret fetches,
    [AUTH_CONTEXT_SETUP_FAILED] for the others. *)
Definition expectedCode (step : setupStep) : errors.ErrorCode :=
  match step with
  | HashKeyFetch | BlockKeyFetch => "CONFIG_OPTION_FILE_READ_FAILED"
  | _ => "AUTH_CONTEXT_SETUP_FAILED"
  end.

Section setup_steps.
Context `{Collaborators} `{!auth.Environment}.
Context (ctx : context_Context) (sm : auth.SecretManager) (options : config.Config).

(** What the steps produce when all of them succeed. *)
Record setupProducts : Type := mkSetupProducts {
  producedCookieManager : CookieHandler;
  producedProvider : oidc_Provider;
  producedOAuth2Config : oauth2.Config;
  producedOAuth2MetadataURL : url.URL;
  producedOidcMetadataURL : url.URL;
}.

Let UserAuth := config.UserAuth options.
Let issuer := url.String (config.BaseURL (config.OpenID UserAuth)).
Let idpClient := auth.mkClient auth.IdpConnectionTimeout.

(** [stepFails step e]: the steps before [step] succeed and [step] fails
    with the error [e]. *)
Inductive stepFails : setupStep → error → Prop :=
| hashKeyFails e :
    auth.Get sm ctx (config.CookieHashKeySecretName UserAuth) = Err e →
    stepFails HashKeyFetch e
| blockKeyFails hashKey e :
    auth.Get sm ctx (config.CookieHashKeySecretName UserAuth) = Ok hashKey →
    auth.Get sm ctx (config.CookieBlockKeySecretName UserAuth) = Err e →
    stepFails BlockKeyFetch e
| cookieManagerFails hashKey blockKey e :
    auth.Get sm ctx (config.CookieHashKeySecretName UserAuth) = Ok hashKey →
    auth.Get sm ctx (config.CookieBlockKeySecretName UserAuth) = Ok blockKey →
    auth.NewCookieManager ctx hashKey blockKey = Err e →
    stepFails CookieManagerConstruction e
| discoveryFails hashKey blockKey cookies e :
    auth.Get sm ctx (config.CookieHashKeySecretName UserAuth) = Ok hashKey →
    auth.Get sm ctx (config.CookieBlockKeySecretName UserAuth) = Ok blockKey →
    auth.NewCookieManager ctx hashKey blockKey = Ok cookies →
    auth.oidc_NewProvider ctx idpClient issuer = Err e →
    stepFails OidcDiscovery e
| oauth2ConfigFails hashKey blockKey cookies provider cfg e :
    auth.Get sm ctx (config.CookieHashKeySecretName UserAuth) = Ok hashKey →
    auth.Get sm ctx (config.CookieBlockKeySecretName UserAuth) = Ok blockKey →
    auth.NewCookieManager ctx hashKey blockKey = Ok cookies →
    auth.oidc_NewProvider ctx idpClient issuer = Ok provider →
    auth.GetOAuth2ClientConfig ctx (config.OpenID UserAuth)
      (config.HTTPPublicUri options) (auth.Provider_Endpoint provider) sm
    = (cfg, Some e) →
    stepFails OAuth2ConfigConstruction e
| oauth2MetadataFails hashKey blockKey cookies provider cfg e :
    auth.Get sm ctx (config.CookieHashKeySecretName UserAuth) = Ok hashKey →
    auth.Get sm ctx (config.CookieBlockKeySecretName UserAuth) = Ok blockKey →
    auth.NewCookieManager ctx hashKey blockKey = Ok cookies →
    auth.oidc_NewProvider ctx idpClient issuer = Ok provider →
    auth.GetOAuth2ClientConfig ctx (config.OpenID UserAuth)
      (config.HTTPPublicUri options) (auth.Provider_Endpoint provider) sm
    = (cfg, None) →
    auth.url_Parse auth.OAuth2MetadataEndpoint = Err e →
    stepFails OAuth2MetadataURLParsing e
| oidcMetadataFails hashKey blockKey cookies provider cfg oauth2Metadata e :
    auth.Get sm ctx (config.CookieHashKeySecretName UserAuth) = Ok hashKey →
    auth.Get sm ctx (config.CookieBlockKeySecretName UserAuth) = Ok blockKey →
    auth.NewCookieManager ctx hashKey blockKey = Ok cookies →
    auth.oidc_NewProvider ctx idpClient issuer = Ok provider →
    auth.GetOAuth2ClientConfig ctx (config.OpenID UserAuth)
      (config.HTTPPublicUri options) (auth.Provider_Endpoint provider) sm
    = (cfg, None) →
    auth.url_Parse auth.OAuth2MetadataEndpoint = Ok oauth2Metadata →
    auth.url_Parse auth.OIdCMetadataEndpoint = Err e →
    stepFails OidcMetadataURLParsing e.

(** [allStepsSucceed p]: every step succeeds, with the products [p]. *)
Definition allStepsSucceed (p : setupProducts) : Prop :=
  ∃ hashKey blockKey,
    auth.Get sm ctx (config.CookieHashKeySecretName UserAuth) = Ok hashKey
    ∧ auth.Get sm ctx (config.CookieBlockKeySecretName UserAuth) = Ok blockKey
    ∧ auth.NewCookieManager ctx hashKey blockKey = Ok (producedCookieManager p)
    ∧ auth.oidc_NewProvider ctx idpClient issuer = Ok (producedProvider p)
    ∧ auth.GetOAuth2ClientConfig ctx (config.OpenID UserAuth)
        (config.HTTPPublicUri options) (auth.Provider_Endpoint (producedProvider p)) sm
      = (producedOAuth2Config p, None)
    ∧ auth.url_Parse auth.OAuth2MetadataEndpoint = Ok (producedOAuth2MetadataURL p)
    ∧ auth.url_Parse auth.OIdCMetadataEndpoint = Ok (producedOidcMetadataURL p).

(** [fullyConstructed p c h']: in the store [h'], the context [c] holds
    every product of the construction, the collaborators it was given, the
    bounded HTTP client and the wrapped authentication service. *)
Definition fullyConstructed
    (oauth2Provider : option OAuth2Provider)
    (oauth2ResourceServer : option OAuth2ResourceServer)
    (metadataProvider : option OAuth2MetadataProvider)
    (infoProvider : option OIdCUserInfoProvider)
    (p : setupProducts) (c : auth.Context) (h' : auth.heap) : Prop :=
  (∃ l, auth.oauth2Client c = Some l ∧ h' !! l = Some (producedOAuth2Config p))
  ∧ auth.cookieManager c = Some (producedCookieManager p)
  ∧ auth.oidcProvider c = Some (producedProvider p)
  ∧ auth.options c = Some options
  ∧ auth.oauth2Provider c = oauth2Provider
  ∧ auth.oauth2ResourceServer c = oauth2ResourceServer
  ∧ auth.oauth2MetadataURL c = Some (producedOAuth2MetadataURL p)
  ∧ auth.oidcMetadataURL c = Some (producedOidcMetadataURL p)
  ∧ auth.httpClient c = Some idpClient
  ∧ ∃ svc, auth.AuthServiceImpl c = Some svc
           ∧ auth.embeddedOAuth2MetadataProvider svc = metadataProvider
           ∧ auth.embeddedOIdCUserInfoProvider svc = infoProvider.

End setup_steps.

(** ** Auxiliary predicates *)

(** No byte of [s] is percent-encoded in the mode [mode]. *)
Fixpoint needsNoEscape (mode : url.encoding) (s : string) : bool :=
  match s with
  | EmptyString => true
  | String c s' => negb (url.shouldEscape c mode) && needsNoEscape mode s'
  end.


(** The schedule of a launch plan request, through the nil-safe getters. *)
Definition scheduleOf (request : admin.LaunchPlanCreateRequest) : option admin.Schedule :=
  admin.LaunchPlanMetadata_GetSchedule
    (admin.LaunchPlanSpec_GetEntityMetadata
       (admin.LaunchPlanCreateRequest_GetSpec request)).

(** * Properties *)

(** ** Strings *)

(** [p] is a prefix of [s]. *)
Definition is_prefix (p s : string) : Prop := ∃ t, s = p +:+ t.

(** [sub] occurs in [s]. *)
Definition occurs_in (sub s : string) : Prop := ∃ a b, s = a +:+ sub +:+ b.

Lemma append_cons (a : ascii) (p t : string) :
  String a p +:+ t = String a (p +:+ t).
Proof. reflexivity. Qed.

Lemma substring_0_0 (s : string) : String.substring 0 0 s = "".
Proof. by destruct s. Qed.

Lemma HasPrefix_spec (s p : string) : strings.HasPrefix s p = true ↔ is_prefix p s.
Proof.
  unfold strings.HasPrefix, is_prefix. revert s.
  induction p as [|a p IH]; intros s.
  - rewrite substring_0_0. simpl. split; [eauto | done].
  - destruct s as [|b s].
    + simpl. split; [done | by intros [t ?]].
    + specialize (IH s). cbn [String.length String.substring].
      change (S (String.length p) <=? S (String.length s))%nat
        with (String.length p <=? String.length s)%nat.
      cbn [String.eqb].
      destruct (Ascii.eqb_spec b a) as [->|Hne].
      * rewrite IH. split.
        -- intros [t ->]. by exists t.
        -- intros [t Ht]. exists t. rewrite append_cons in Ht. congruence.
      * rewrite andb_false_r. split; [done |].
        intros [t Ht]. rewrite append_cons in Ht. congruence.
Qed.

Lemma HasPrefix_false (s p : string) : strings.HasPrefix s p = false ↔ ¬ is_prefix p s.
Proof.
  rewrite <- HasPrefix_spec. by destruct (strings.HasPrefix s p).
Qed.

Lemma Contains_spec (s sub : string) : strings.Contains s sub = true ↔ occurs_in sub s.
Proof.
  unfold occurs_in. induction s as [|c s IH]; cbn [strings.Contains].
  - rewrite orb_false_r, HasPrefix_spec. split.
    + intros [t ->]. by exists "", t.
    + intros (a & b & Hs). destruct a; [by exists b | done].
  - rewrite orb_true_iff, HasPrefix_spec, IH. split.
    + intros [[t ->] | (a & b & ->)]; [by exists "", t | by exists (String c a), b].
    + intros (a & b & Hs). destruct a as [|c' a].
      * left. by exists b.
      * right. exists a, b. rewrite append_cons in Hs. congruence.
Qed.

(** ** URLs: resolving the two constant references *)

Lemma ResolveReference_callback (u : url.URL) :
  url.ResolveReference u (url.absPath "/callback")
  = url.mkURL (url.Scheme u) "" (url.User u) (url.Host u) "/callback" false "" "".
Proof. reflexivity. Qed.

Lemma ResolveReference_root (u : url.URL) :
  url.ResolveReference u (url.absPath "/")
  = url.mkURL (url.Scheme u) "" (url.User u) (url.Host u) "/" false "" "".
Proof. reflexivity. Qed.

Lemma append_nil_r (s : string) : s +:+ "" = s.
Proof. induction s as [|c s IH]; [done | by rewrite append_cons, IH]. Qed.

Lemma append_assoc (a b c : string) : (a +:+ b) +:+ c = a +:+ (b +:+ c).
Proof. induction a as [|x a IH]; [done | by rewrite !append_cons, IH]. Qed.

Lemma append_eq_nil (a b : string) : a +:+ b = "" → a = "" ∧ b = "".
Proof. destruct a; [done | by rewrite append_cons]. Qed.

Lemma nonEmpty_true (s : string) : s ≠ "" → url.nonEmpty s = true.
Proof.
  intros Hs. unfold url.nonEmpty. by destruct (String.eqb_spec s "").
Qed.

(** With a scheme, a host and no user information, a URL whose path is one
    of the two constants prints as [scheme://host] followed by the path. *)
Lemma String_scheme_host (scheme host p : string) :
  scheme ≠ "" → host ≠ "" →
  p = "/callback" ∨ p = "/" →
  url.String (url.mkURL scheme "" None host p false "" "")
  = scheme +:+ "://" +:+ url.escape host url.encodeHost +:+ p.
Proof.
  intros Hs Hh Hp. unfold url.String.
  cbn [url.Scheme url.Opaque url.User url.Host url.Path url.ForceQuery url.RawQuery url.Fragment].
  rewrite (nonEmpty_true scheme Hs), (nonEmpty_true host Hh).
  change (url.nonEmpty "") with false.
  cbn [orb andb negb].
  assert (Hbuf : ∀ rest, String.eqb ((scheme +:+ ":") +:+ rest) "" = false).
  { intros rest. apply String.eqb_neq. intros Hnil.
    apply append_eq_nil in Hnil as [Hnil _].
    apply append_eq_nil in Hnil as [? _]. done. }
  destruct Hp as [-> | ->].
  - change (url.EscapedPath _) with "/callback".
    change (url.nonEmpty "/callback") with true.
    change (strings.HasPrefix "/callback" "/") with true.
    cbn [orb andb negb]. rewrite Hbuf. cbn [andb].
    rewrite !append_assoc. reflexivity.
  - change (url.EscapedPath _) with "/".
    change (url.nonEmpty "/") with true.
    change (strings.HasPrefix "/" "/") with true.
    cbn [orb andb negb]. rewrite Hbuf. cbn [andb].
    rewrite !append_assoc. reflexivity.
Qed.

(** ** The authentication context *)

Section auth_context_properties.
Context `{Collaborators}.

(** The anonymous set holds the two metadata methods and nothing else;
    membership is equality with one of the two names. *)
Lemma anonymousMethodNames_exact (name : string) :
  name ∈ auth.anonymousMethodNames
  ↔ name = "/flyteidl.service.AuthService/OAuth2Metadata"
    ∨ name = "/flyteidl.service.AuthService/FlyteClient".
Proof. unfold auth.anonymousMethodNames. set_solver. Qed.

(** C1. For a method name in the anonymous set, which holds exactly the
    names [/flyteidl.service.AuthService/OAuth2Metadata] and
    [/flyteidl.service.AuthService/FlyteClient] (compared as whole
    strings), [AuthFuncOverride] returns the context it was given and no
    error, without consulting the interceptor; for any other name its
    result is the interceptor's. *)
Theorem AuthFuncOverride_anonymous_exact_match
    (s : auth.authServiceWrapper) (ctx : context_Context) (fullMethodName : string) :
  (fullMethodName ∈ auth.anonymousMethodNames
   ↔ fullMethodName = "/flyteidl.service.AuthService/OAuth2Metadata"
     ∨ fullMethodName = "/flyteidl.service.AuthService/FlyteClient")
  ∧ (fullMethodName ∈ auth.anonymousMethodNames →
     auth.AuthFuncOverride s ctx fullMethodName = (ctx, None))
  ∧ (fullMethodName ∉ auth.anonymousMethodNames →
     auth.AuthFuncOverride s ctx fullMethodName = auth.authInterceptor s ctx).
Proof.
  split; [apply anonymousMethodNames_exact |].
  unfold auth.AuthFuncOverride. split; intros Hin.
  - by rewrite bool_decide_eq_true_2.
  - by rewrite bool_decide_eq_false_2.
Qed.

Lemma OAuth2ClientConfig_shared (c : auth.Context) (u : url.URL) (h : auth.heap)
    (l : auth.loc) (dflt : oauth2.Config) :
  auth.oauth2Client c = Some l → h !! l = Some dflt →
  strings.HasPrefix (oauth2.RedirectURL dflt)
    (url.String (url.ResolveReference u auth.rootRelativeUrl)) = true →
  auth.OAuth2ClientConfig c (Some u) h = Returns (Some l, h).
Proof.
  intros Hc Hl Hp. unfold auth.OAuth2ClientConfig.
  rewrite Hc. cbn [mbind option_bind]. rewrite Hl, Hp. reflexivity.
Qed.

Lemma OAuth2ClientConfig_forked (c : auth.Context) (u : url.URL) (h : auth.heap)
    (l : auth.loc) (dflt : oauth2.Config) :
  auth.oauth2Client c = Some l → h !! l = Some dflt →
  strings.HasPrefix (oauth2.RedirectURL dflt)
    (url.String (url.ResolveReference u auth.rootRelativeUrl)) = false →
  auth.OAuth2ClientConfig c (Some u) h
  = Returns (Some (length h),
             h ++ [oauth2.mkConfig (oauth2.ClientID dflt) (oauth2.ClientSecret dflt)
                     (oauth2.Endpoint_ dflt)
                     (url.String (url.ResolveReference u auth.callbackRelativeUrl))
                     (oauth2.Scopes dflt)]).
Proof.
  intros Hc Hl Hp. unfold auth.OAuth2ClientConfig.
  rewrite Hc. cbn [mbind option_bind]. rewrite Hl, Hp. reflexivity.
Qed.

(** C2. With a request URL, and the context's descriptor [dflt] stored at
    [l]: when the root of the request (the request resolved against [/])
    is a prefix of the default redirect URL, the call returns [l] and
    leaves the store as it was; otherwise it returns a fresh descriptor
    whose redirect URL is the request resolved against [/callback] and
    whose other fields are those of [dflt], which stays in place. For the
    default redirect [https://a.example/callback], a request to host
    [https://b.example] gets [https://b.example/callback], and a request to
    host [https://a.example] gets the default descriptor. *)
Theorem OAuth2ClientConfig_per_host_redirect
    (c : auth.Context) (requestUrl : url.URL) (h : auth.heap)
    (l : auth.loc) (dflt : oauth2.Config) :
  auth.oauth2Client c = Some l →
  h !! l = Some dflt →
  let root := url.String (url.ResolveReference requestUrl auth.rootRelativeUrl) in
  let callback := url.String (url.ResolveReference requestUrl auth.callbackRelativeUrl) in
  (is_prefix root (oauth2.RedirectURL dflt) →
   auth.OAuth2ClientConfig c (Some requestUrl) h = Returns (Some l, h))
  ∧ (¬ is_prefix root (oauth2.RedirectURL dflt) →
     ∃ l' h',
       auth.OAuth2ClientConfig c (Some requestUrl) h = Returns (Some l', h')
       ∧ h' !! l' = Some (oauth2.mkConfig (oauth2.ClientID dflt)
                            (oauth2.ClientSecret dflt) (oauth2.Endpoint_ dflt)
                            callback (oauth2.Scopes dflt))
       ∧ l' ≠ l
       ∧ h' !! l = Some dflt)
  ∧ (oauth2.RedirectURL dflt = "https://a.example/callback" →
     url.Scheme requestUrl = "https" → url.User requestUrl = None →
     (url.Host requestUrl = "b.example" →
      ∃ l' h' d,
        auth.OAuth2ClientConfig c (Some requestUrl) h = Returns (Some l', h')
        ∧ h' !! l' = Some d
        ∧ oauth2.RedirectURL d = "https://b.example/callback"
        ∧ oauth2.ClientID d = oauth2.ClientID dflt
        ∧ oauth2.ClientSecret d = oauth2.ClientSecret dflt
        ∧ oauth2.Scopes d = oauth2.Scopes dflt
        ∧ oauth2.Endpoint_ d = oauth2.Endpoint_ dflt)
     ∧ (url.Host requestUrl = "a.example" →
        auth.OAuth2ClientConfig c (Some requestUrl) h = Returns (Some l, h))).
Proof.
  intros Hc Hl root callback. split; [| split].
  - intros Hp. apply (OAuth2ClientConfig_shared c requestUrl h l dflt Hc Hl).
    by apply HasPrefix_spec.
  - intros Hp. exists (length h), (h ++ [oauth2.mkConfig (oauth2.ClientID dflt)
      (oauth2.ClientSecret dflt) (oauth2.Endpoint_ dflt) callback (oauth2.Scopes dflt)]).
    assert (Hlt : l < length h) by (by eapply lookup_lt_Some).
    split; [| split; [| split]].
    + apply (OAuth2ClientConfig_forked c requestUrl h l dflt Hc Hl).
      by apply HasPrefix_false.
    + by rewrite lookup_app_r, Nat.sub_diag.
    + lia.
    + by rewrite lookup_app_l.
  - intros Hr Hs Hu. unfold auth.rootRelativeUrl, auth.callbackRelativeUrl in *.
    split; intros Hh.
    + exists (length h), (h ++ [oauth2.mkConfig (oauth2.ClientID dflt)
        (oauth2.ClientSecret dflt) (oauth2.Endpoint_ dflt) callback (oauth2.Scopes dflt)]),
        (oauth2.mkConfig (oauth2.ClientID dflt)
        (oauth2.ClientSecret dflt) (oauth2.Endpoint_ dflt) callback (oauth2.Scopes dflt)).
      split; [| split; [| split]].
      * apply (OAuth2ClientConfig_forked c requestUrl h l dflt Hc Hl).
        unfold auth.rootRelativeUrl.
        rewrite ResolveReference_root, Hr, Hs, Hu, Hh. reflexivity.
      * by rewrite lookup_app_r, Nat.sub_diag.
      * cbn [oauth2.RedirectURL]. unfold callback.
        rewrite ResolveReference_callback, Hs, Hu, Hh. reflexivity.
      * done.
    + apply (OAuth2ClientConfig_shared c requestUrl h l dflt Hc Hl).
      unfold auth.rootRelativeUrl.
      rewrite ResolveReference_root, Hr, Hs, Hu, Hh. reflexivity.
Qed.

End auth_context_properties.

Lemma OAuth2ClientConfig_per_host_redirect_witness :
  ∃ l' h' d,
    @auth.OAuth2ClientConfig demoCollaborators demoContext (Some hostB) [demoDescriptor]
    = Returns (Some l', h')
    ∧ h' !! l' = Some d
    ∧ oauth2.RedirectURL d = "https://b.example/callback"
    ∧ oauth2.ClientID d = "flyte-client"
    ∧ oauth2.ClientSecret d = "s3cr3t"
    ∧ oauth2.Scopes d = ["openid"; "profile"]
    ∧ oauth2.Endpoint_ d = oauth2.Endpoint_ demoDescriptor.
Proof.
  destruct (@OAuth2ClientConfig_per_host_redirect demoCollaborators demoContext hostB
              [demoDescriptor] 0 demoDescriptor eq_refl eq_refl)
    as (_ & _ & Hexample).
  destruct (Hexample eq_refl eq_refl eq_refl) as [HhostB _].
  exact (HhostB eq_refl).
Defined.

(** ** Trimming the client secret *)

Lemma length_append (a b : string) :
  String.length (a +:+ b) = String.length a + String.length b.
Proof. induction a as [|c a IH]; [done |]. rewrite append_cons. simpl. by rewrite IH. Qed.

Lemma substring_full (s : string) : String.substring 0 (String.length s) s = s.
Proof. induction s as [|c s IH]; [done |]. simpl. by rewrite IH. Qed.

Lemma substring_append_l (a b : string) :
  String.substring 0 (String.length a) (a +:+ b) = a.
Proof.
  induction a as [|c a IH]; [apply substring_0_0 |].
  rewrite append_cons. simpl. by rewrite IH.
Qed.

Lemma substring_append_r (a b : string) :
  String.substring (String.length a) (String.length b) (a +:+ b) = b.
Proof.
  induction a as [|c a IH]; [apply substring_full |].
  rewrite append_cons. simpl. apply IH.
Qed.

(** [TrimSuffix] removes one occurrence of the suffix, the last one. *)
Lemma TrimSuffix_append (s suffix : string) :
  strings.TrimSuffix (s +:+ suffix) suffix = s.
Proof.
  unfold strings.TrimSuffix, strings.HasSuffix.
  rewrite length_append.
  replace (String.length s + String.length suffix - String.length suffix)
    with (String.length s) by lia.
  rewrite substring_append_r, String.eqb_refl, substring_append_l.
  by rewrite (leb_correct _ _ (Nat.le_add_l _ _)).
Qed.

Lemma TrimSuffix_two_newlines (s : string) :
  strings.TrimSuffix (s +:+ newline +:+ newline) newline = s +:+ newline.
Proof. by rewrite <- append_assoc, TrimSuffix_append. Qed.

Lemma TrimSuffix_no_suffix (s suffix : string) :
  strings.HasSuffix s suffix = false → strings.TrimSuffix s suffix = s.
Proof. unfold strings.TrimSuffix. by intros ->. Qed.

(** ** Constructing the authentication context *)

Section construction_properties.
Context `{Collaborators} `{!auth.Environment}.
Context (ctx : context_Context) (sm : auth.SecretManager).

(** Without the deprecated option, the client secret is the secret stored
    under [ClientSecretName], less one trailing newline, and the redirect
    URL is the public base URL resolved against [/callback]. *)
Lemma GetOAuth2ClientConfig_from_secret_manager
    (options : config.OpenIDOptions) (publicHTTPBaseUrl : url.URL)
    (providerEndpoints : oauth2.Endpoint) (secret : string) :
  config.DeprecatedClientSecretFile options = "" →
  auth.Get sm ctx (config.ClientSecretName options) = Ok secret →
  auth.GetOAuth2ClientConfig ctx options publicHTTPBaseUrl providerEndpoints sm
  = (oauth2.mkConfig (config.ClientID options)
       (strings.TrimSuffix secret newline) providerEndpoints
       (url.String (url.ResolveReference publicHTTPBaseUrl (url.absPath "/callback")))
       (config.Scopes options),
     None).
Proof.
  intros Hd Hs. unfold auth.GetOAuth2ClientConfig. by rewrite Hd, Hs.
Qed.

(** With the deprecated option set, the file that is read is the one named
    by [ClientSecretName]; the value of [DeprecatedClientSecretFile] is only
    tested for being non-empty. *)
Lemma GetOAuth2ClientConfig_deprecated_branch
    (options : config.OpenIDOptions) (publicHTTPBaseUrl : url.URL)
    (providerEndpoints : oauth2.Endpoint) :
  config.DeprecatedClientSecretFile options ≠ "" →
  auth.GetOAuth2ClientConfig ctx options publicHTTPBaseUrl providerEndpoints sm
  = match auth.ioutil_ReadFile (config.ClientSecretName options) with
    | Ok secretBytes =>
        (oauth2.mkConfig (config.ClientID options)
           (strings.TrimSuffix secretBytes newline) providerEndpoints
           (url.String (url.ResolveReference publicHTTPBaseUrl (url.absPath "/callback")))
           (config.Scopes options),
         None)
    | Err err => (oauth2.zero, Some err)
    end.
Proof.
  intros Hd. unfold auth.GetOAuth2ClientConfig.
  destruct (config.DeprecatedClientSecretFile options); [done |].
  cbn [String.length Nat.ltb Nat.leb]. by destruct (auth.ioutil_ReadFile _).
Qed.

Context (oauth2Provider : option OAuth2Provider)
        (oauth2ResourceServer : option OAuth2ResourceServer)
        (metadataProvider : option OAuth2MetadataProvider)
        (infoProvider : option OIdCUserInfoProvider)
        (options : config.Config) (h : auth.heap).

Let construct :=
  auth.NewAuthenticationContext ctx sm oauth2Provider oauth2ResourceServer
    metadataProvider infoProvider options h.

(** A failing step ends the construction: the zero context, an error that
    wraps the step's error under the step's code, and an untouched store. *)
Lemma NewAuthenticationContext_step_failure (step : setupStep) (e : error) :
  stepFails ctx sm options step e →
  ∃ msg,
    construct = ((auth.zeroContext, Some (errors.Wrapf (expectedCode step) e msg)), h).
Proof.
  unfold construct, auth.NewAuthenticationContext.
  destruct 1;
    repeat match goal with
           | Heq : _ = _ |- _ => rewrite Heq; clear Heq
           end;
    eexists; reflexivity.
Qed.

(** The construction either meets a failing step or completes. *)
Lemma NewAuthenticationContext_cases :
  (∃ step e, stepFails ctx sm options step e)
  ∨ (∃ p c h',
       allStepsSucceed ctx sm options p
       ∧ construct = ((c, None), h')
       ∧ fullyConstructed options oauth2Provider oauth2ResourceServer
           metadataProvider infoProvider p c h').
Proof.
  unfold construct, auth.NewAuthenticationContext.
  destruct (auth.Get sm ctx (config.CookieHashKeySecretName (config.UserAuth options)))
    as [hashKey|e] eqn:Hhash; [| left; eauto using stepFails].
  destruct (auth.Get sm ctx (config.CookieBlockKeySecretName (config.UserAuth options)))
    as [blockKey|e] eqn:Hblock; [| left; eauto using stepFails].
  destruct (auth.NewCookieManager ctx hashKey blockKey)
    as [cookies|e] eqn:Hcookies; [| left; eauto using stepFails].
  destruct (auth.oidc_NewProvider ctx (auth.mkClient auth.IdpConnectionTimeout)
              (url.String (config.BaseURL (config.OpenID (config.UserAuth options)))))
    as [provider|e] eqn:Hprovider; [| left; eauto using stepFails].
  destruct (auth.GetOAuth2ClientConfig ctx (config.OpenID (config.UserAuth options))
              (config.HTTPPublicUri options) (auth.Provider_Endpoint provider) sm)
    as [cfg [e|]] eqn:Hcfg; [left; eauto using stepFails |].
  destruct (auth.url_Parse auth.OAuth2MetadataEndpoint)
    as [oauth2Metadata|e] eqn:Hmeta; [| left; eauto using stepFails].
  destruct (auth.url_Parse auth.OIdCMetadataEndpoint)
    as [oidcMetadata|e] eqn:Hoidc; [| left; eauto using stepFails].
  right.
  exists (mkSetupProducts cookies provider cfg oauth2Metadata oidcMetadata).
  eexists _, _. split; [| split; [reflexivity |]].
  - exists hashKey, blockKey. by repeat split.
  - unfold fullyConstructed. cbn.
    split; [| by eauto 15].
    exists (length h). split; [done |]. by rewrite lookup_app_r, Nat.sub_diag.
Qed.

(** C3. The construction succeeds completely or fails atomically. When a
    step fails (a secret fetch, the cookie manager, OIDC discovery, the
    OAuth2 configuration, the parsing of a metadata URL) the result is a
    non-nil error with the zero [Context]. A non-nil error never comes
    with anything but the zero [Context] and the store as it was, and a
    nil error only with a context that holds every product of the steps. *)
Theorem NewAuthenticationContext_all_or_nothing :
  (∀ step e, stepFails ctx sm options step e →
     ∃ err, construct = ((auth.zeroContext, Some err), h))
  ∧ (∀ c err h', construct = ((c, Some err), h') →
       c = auth.zeroContext ∧ h' = h ∧ ∃ step e, stepFails ctx sm options step e)
  ∧ (∀ c h', construct = ((c, None), h') →
       ∃ p, allStepsSucceed ctx sm options p
            ∧ fullyConstructed options oauth2Provider oauth2ResourceServer
                metadataProvider infoProvider p c h').
Proof.
  split; [| split].
  - intros step e Hfail.
    destruct (NewAuthenticationContext_step_failure step e Hfail) as [msg ->]. eauto.
  - intros c err h' Hrun.
    destruct NewAuthenticationContext_cases as [(step & e & Hfail) | (p & c0 & h0 & _ & Hok & _)].
    + destruct (NewAuthenticationContext_step_failure step e Hfail) as [msg Hmsg].
      rewrite Hmsg in Hrun. injection Hrun as <- _ <-. eauto.
    + rewrite Hok in Hrun. discriminate.
  - intros c h' Hrun.
    destruct NewAuthenticationContext_cases as [(step & e & Hfail) | (p & c0 & h0 & Hall & Hok & Hfull)].
    + destruct (NewAuthenticationContext_step_failure step e Hfail) as [msg Hmsg].
      rewrite Hmsg in Hrun. discriminate.
    + rewrite Hok in Hrun. injection Hrun as <- <-. eauto.
Qed.

(** C4. A failed fetch of the hash key or of the block key yields an error
    of code [CONFIG_OPTION_FILE_READ_FAILED]; a failure of the cookie
    manager, of OIDC discovery, of the OAuth2 configuration or of the
    parsing of a metadata URL yields one of code
    [AUTH_CONTEXT_SETUP_FAILED]. The error wraps the failing step's own. *)
Theorem NewAuthenticationContext_error_codes (step : setupStep) (e : error) :
  stepFails ctx sm options step e →
  ∃ err msg,
    snd (fst construct) = Some err
    ∧ err = errors.errorWithCause
              (match step with
               | HashKeyFetch | BlockKeyFetch => auth.ErrConfigFileRead
               | CookieManagerConstruction | OidcDiscovery | OAuth2ConfigConstruction
               | OAuth2MetadataURLParsing | OidcMetadataURLParsing => auth.ErrauthCtx
               end) msg e
    ∧ errors.Code err = Some (expectedCode step).
Proof.
  intros Hfail.
  destruct (NewAuthenticationContext_step_failure step e Hfail) as [msg ->].
  exists (errors.Wrapf (expectedCode step) e msg), msg.
  by destruct step.
Qed.

End construction_properties.

(** A successful [GetOAuth2ClientConfig] sets the redirect URL to the
    public base URL resolved against [/callback]. *)
Lemma GetOAuth2ClientConfig_RedirectURL `{Collaborators} `{!auth.Environment}
    (ctx : context_Context) (options : config.OpenIDOptions)
    (publicHTTPBaseUrl : url.URL) (providerEndpoints : oauth2.Endpoint)
    (sm : auth.SecretManager) (cfg : oauth2.Config) :
  auth.GetOAuth2ClientConfig ctx options publicHTTPBaseUrl providerEndpoints sm
  = (cfg, None) →
  oauth2.RedirectURL cfg
  = url.String (url.ResolveReference publicHTTPBaseUrl auth.callbackRelativeUrl).
Proof.
  unfold auth.GetOAuth2ClientConfig.
  destruct (0 <? String.length (config.DeprecatedClientSecretFile options))%nat.
  - destruct (auth.ioutil_ReadFile _); [| done]. by intros [= <-].
  - destruct (auth.Get sm ctx _); [| done]. by intros [= <-].
Qed.

(** C9. Without a request URL, [OAuth2ClientConfig] returns the pointer
    held by the context itself and allocates nothing: the caller reads the
    default descriptor, not a copy of it. For a context that
    [NewAuthenticationContext] built, that descriptor is the configured
    one, whose redirect URL is the public base URL resolved against
    [/callback]. *)
Theorem OAuth2ClientConfig_nil_request_returns_default
    `{Collaborators} `{!auth.Environment} (c : auth.Context) (h : auth.heap) :
  auth.OAuth2ClientConfig c None h = Returns (auth.oauth2Client c, h)
  ∧ ∀ ctx sm oauth2Provider oauth2ResourceServer metadataProvider infoProvider
      options h0,
      auth.NewAuthenticationContext ctx sm oauth2Provider oauth2ResourceServer
        metadataProvider infoProvider options h0 = ((c, None), h) →
      ∃ l dflt,
        auth.OAuth2ClientConfig c None h = Returns (Some l, h)
        ∧ h !! l = Some dflt
        ∧ oauth2.RedirectURL dflt
          = url.String (url.ResolveReference (config.HTTPPublicUri options)
                          auth.callbackRelativeUrl).
Proof.
  split; [reflexivity |].
  intros ctx sm oauth2Provider oauth2ResourceServer metadataProvider infoProvider
    options h0 Hbuilt.
  destruct (NewAuthenticationContext_cases ctx sm oauth2Provider oauth2ResourceServer
              metadataProvider infoProvider options h0)
    as [(step & e & Hfail) | (p & c0 & h' & Hall & Hok & Hfull)].
  - destruct (NewAuthenticationContext_step_failure ctx sm oauth2Provider
                oauth2ResourceServer metadataProvider infoProvider options h0
                step e Hfail) as [msg Hmsg].
    rewrite Hmsg in Hbuilt. discriminate.
  - rewrite Hok in Hbuilt. injection Hbuilt as <- <-.
    destruct Hfull as ((l & Hl & Hdflt) & _).
    destruct Hall as (hashKey & blockKey & _ & _ & _ & _ & Hcfg & _).
    exists l, (producedOAuth2Config p). unfold auth.OAuth2ClientConfig.
    rewrite Hl. split_and!; [done | done |].
    by apply GetOAuth2ClientConfig_RedirectURL in Hcfg.
Qed.

Lemma NewAuthenticationContext_all_or_nothing_witness :
  ∃ err,
    @auth.NewAuthenticationContext demoCollaborators demoEnvironment "boot"
      (tableSecretManager secretsWithoutBlockKey) None None None None demoOptions []
    = ((auth.zeroContext, Some err), []).
Proof.
  destruct (@NewAuthenticationContext_all_or_nothing demoCollaborators demoEnvironment
              "boot" (tableSecretManager secretsWithoutBlockKey) None None None None
              demoOptions []) as [Hfail _].
  apply (Hfail BlockKeyFetch (errors.errorString "secret not found: cookie_block_key")).
  eapply blockKeyFails; reflexivity.
Defined.

Lemma NewAuthenticationContext_error_codes_witness :
  ∃ err msg,
    snd (fst (@auth.NewAuthenticationContext demoCollaborators demoEnvironment "boot"
                (tableSecretManager secretsWithoutBlockKey) None None None None
                demoOptions [])) = Some err
    ∧ err = errors.errorWithCause "CONFIG_OPTION_FILE_READ_FAILED" msg
              (errors.errorString "secret not found: cookie_block_key")
    ∧ errors.Code err = Some "CONFIG_OPTION_FILE_READ_FAILED".
Proof.
  apply (@NewAuthenticationContext_error_codes demoCollaborators demoEnvironment
           "boot" (tableSecretManager secretsWithoutBlockKey) None None None None
           demoOptions [] BlockKeyFetch).
  eapply blockKeyFails; reflexivity.
Defined.

(** C6, at an input where it fails. The deprecated client-secret file is
    configured and readable, and holds the secret; [GetOAuth2ClientConfig]
    does not read it: it opens a file named after the secret
    ([ClientSecretName]), which does not exist, and returns that error. *)
Theorem GetOAuth2ClientConfig_ignores_deprecated_file_path :
  config.DeprecatedClientSecretFile deprecatedOpenID = "/etc/secrets/client_secret"
  ∧ @auth.ioutil_ReadFile demoCollaborators demoEnvironment "/etc/secrets/client_secret"
    = Ok ("s3cr3t" +:+ newline)
  ∧ @auth.GetOAuth2ClientConfig demoCollaborators demoEnvironment "boot" deprecatedOpenID
      (config.HTTPPublicUri demoOptions)
      (oauth2.mkEndpoint "https://idp.example/authorize" "https://idp.example/token")
      (tableSecretManager demoSecrets)
    = (oauth2.zero,
       Some (errors.errorString "open oidc_client_secret: no such file or directory")).
Proof. by vm_compute. Qed.

(** ** The gateway: serve.go *)

Section entrypoints_properties.
Context `{Collaborators} `{!entrypoints.Environment}.

(** The header read by the demultiplexer is the first value stored under
    the key [Content-Type], which is its own canonical form. *)
Lemma Get_Content_Type (hdr : http.Header) :
  http.Get hdr "Content-Type"
  = match hdr !! "Content-Type" with
    | Some (v :: _) => v
    | _ => ""
    end.
Proof. reflexivity. Qed.

(** C5. The demultiplexer hands a request to the gRPC server exactly when
    its protocol major version is 2 and [application/grpc] occurs in its
    [Content-Type] header; a request with another protocol version, and a
    request with another content type, go to the other handler, whatever
    the other attribute is. *)
Theorem grpcHandlerFunc_demultiplexes
    (grpcServer : grpc.Server_) (otherHandler : http.Handler)
    (w : http.ResponseWriter) (r : http.Request) :
  let contentType := http.Get (http.Header_ r) "Content-Type" in
  let isGRPC := http.ProtoMajor r = 2%Z ∧ occurs_in "application/grpc" contentType in
  (isGRPC →
   entrypoints.grpcHandlerFunc grpcServer otherHandler w r
   = entrypoints.grpcServer_ServeHTTP grpcServer w r)
  ∧ (¬ isGRPC →
     entrypoints.grpcHandlerFunc grpcServer otherHandler w r = otherHandler w r)
  ∧ (http.ProtoMajor r ≠ 2%Z →
     entrypoints.grpcHandlerFunc grpcServer otherHandler w r = otherHandler w r)
  ∧ (¬ occurs_in "application/grpc" contentType →
     entrypoints.grpcHandlerFunc grpcServer otherHandler w r = otherHandler w r).
Proof.
  intros contentType isGRPC. unfold entrypoints.grpcHandlerFunc.
  fold contentType.
  assert (Hdec : (http.ProtoMajor r =? 2)%Z
                 && strings.Contains contentType "application/grpc" = true ↔ isGRPC).
  { by rewrite andb_true_iff, Z.eqb_eq, Contains_spec. }
  destruct ((http.ProtoMajor r =? 2)%Z
            && strings.Contains contentType "application/grpc") eqn:Hb.
  - assert (Hyes : isGRPC) by (by apply Hdec).
    destruct Hyes as [Hv Hc]. repeat split; intros Hx; try done.
    exfalso. by apply Hx.
  - assert (Hno : ¬ isGRPC) by (rewrite <- Hdec; congruence).
    by repeat split.
Qed.

Lemma Creds_leavesInterceptors (c : string) : grpc.leavesInterceptors (grpc.Creds c).
Proof. intros o. by eexists. Qed.

(** Options that set no interceptor leave the interceptors of a server as
    they are, and never panic. *)
Lemma apply_other_options (opts : list grpc.ServerOption) (o : grpc.serverOptions) :
  Forall grpc.leavesInterceptors opts →
  ∃ o', foldl (λ acc (f : grpc.ServerOption), go! o ← acc; f o) (Returns o) opts
        = Returns o'
        ∧ grpc.unaryInt o' = grpc.unaryInt o
        ∧ grpc.streamInt o' = grpc.streamInt o.
Proof.
  intros Hopts. revert o.
  induction Hopts as [|f opts Hf _ IH]; intros o; [by exists o |].
  destruct (Hf o) as (o1 & Hrun1 & Hu1 & Hs1).
  destruct (IH o1) as (o' & Hrun & Hu & Hs).
  exists o'. cbn [foldl exec_bind]. rewrite Hrun1, Hrun. split_and!; congruence.
Qed.

(** C7. In the server built with authentication enabled, a unary call
    meets the authentication decision after the metrics interceptor has
    started and before anything else: before the logging interceptor and
    the method handler, whose events [evs] follow it, and before the
    metrics interceptor records the outcome. A rejected call never reaches
    the handler, and the recorded code is that of the rejection. The
    further options of the server are any that set no interceptor, such as
    the transport credentials [serve.go] passes. *)
Theorem newGRPCServer_authenticates_before_handler_and_metrics
    (ctx : context_Context) (cfg : entrypoints.ServerConfig)
    (authContext : option auth.Context) (opts : list grpc.ServerOption) :
  entrypoints.UseAuth (entrypoints.Security cfg) = true →
  Forall grpc.leavesInterceptors opts →
  ∃ srv,
    entrypoints.newGRPCServer ctx cfg authContext opts = Returns (Some srv, None)
    ∧ ∀ callCtx req info handler,
        grpc.handleUnary srv callCtx req info handler
        = let m := grpc.FullMethod info in
          let '(newCtx, err) :=
            match grpc.Server info with
            | Some AuthFuncOverride => AuthFuncOverride callCtx m
            | None => entrypoints.GetAuthenticationInterceptor authContext callCtx
            end in
          match err with
          | Some e =>
              ((None, Some e),
               [grpc.MetricsStarted m; grpc.MetricsMsgReceived m;
                grpc.AuthDecision m (Some e);
                grpc.MetricsHandled m (errors.status_Code (Some e))])
          | None =>
              let '((resp, herr), evs) :=
                entrypoints.AuthenticationLoggingInterceptor newCtx req info handler in
              ((resp, herr),
               [grpc.MetricsStarted m; grpc.MetricsMsgReceived m;
                grpc.AuthDecision m None]
               ++ evs
               ++ grpc.MetricsHandled m (errors.status_Code herr)
                  :: match herr with
                     | None => [grpc.MetricsMsgSent m]
                     | Some _ => []
                     end)
          end.
Proof.
  intros Hauth Hopts. unfold entrypoints.newGRPCServer, grpc.NewServer.
  rewrite Hauth, foldl_app.
  cbn [foldl exec_bind grpc.StreamInterceptor grpc.UnaryInterceptor
       grpc.unaryInt grpc.streamInt grpc.creds].
  match goal with
  | |- context [foldl _ (Returns ?o) opts] =>
      destruct (apply_other_options opts o Hopts) as (o' & -> & Hu & _)
  end.
  cbn [exec_bind]. eexists. split; [reflexivity |].
  intros callCtx req info handler.
  unfold grpc.handleUnary, grpc.RegisterService. cbn [grpc.opts].
  rewrite Hu. cbn [grpc.unaryInt].
  unfold grpc.ChainUnaryServer. cbn [foldr].
  unfold grpc.grpc_prometheus_UnaryServerInterceptor,
    grpc.grpcauth_UnaryServerInterceptor.
  destruct (match grpc.Server info with
            | Some AuthFuncOverride => AuthFuncOverride callCtx (grpc.FullMethod info)
            | None => entrypoints.GetAuthenticationInterceptor authContext callCtx
            end) as [newCtx [e|]]; [reflexivity |].
  cbn [grpc.bind grpc.emit grpc.ret].
  destruct (entrypoints.AuthenticationLoggingInterceptor newCtx req info handler)
    as [[resp [herr|]] evs]; cbn; by rewrite ?app_nil_r.
Qed.

(** Registering a fresh, non-empty pattern extends the mux. *)
Lemma Handle_fresh (mux : http.ServeMux) (pattern : string) (handler : http.Handler) :
  pattern ≠ "" → mux !! pattern = None →
  http.Handle mux pattern handler = Returns (<[pattern := handler]> mux).
Proof.
  intros Hne Hfresh. unfold http.Handle.
  destruct (String.eqb_spec pattern ""); [done |]. by rewrite Hfresh.
Qed.

(** The mux built with authentication disabled. *)
Lemma newHTTPServer_without_auth
    (ctx : context_Context) (cfg : entrypoints.ServerConfig)
    (authContext : option auth.Context) (grpcAddress : string)
    (grpcConnectionOpts : list string) (gwmux : runtime_ServeMux) :
  entrypoints.UseAuth (entrypoints.Security cfg) = false →
  entrypoints.RegisterAdminServiceHandlerFromEndpoint ctx
    (entrypoints.runtime_NewServeMux
       [entrypoints.WithMarshalerOption "application/octet-stream" "ProtoMarshaller"])
    grpcAddress grpcConnectionOpts = (gwmux, None) →
  entrypoints.newHTTPServer ctx cfg authContext grpcAddress grpcConnectionOpts
  = Returns (Some (<["/" := entrypoints.gateway_ServeHTTP gwmux]>
                     (<["/api/v1/openapi" := entrypoints.GetHandleOpenapiSpec ctx]>
                        (<["/healthcheck" := entrypoints.healthcheck]> ∅))),
             None).
Proof.
  intros Hauth Hreg. unfold entrypoints.newHTTPServer, http.NewServeMux.
  rewrite Hauth.
  repeat (rewrite Handle_fresh by (by simplify_map_eq); cbn [exec_bind]).
  rewrite Hreg.
  by rewrite Handle_fresh by (by simplify_map_eq).
Qed.

(** The mux built with authentication enabled. *)
Lemma newHTTPServer_with_auth
    (ctx : context_Context) (cfg : entrypoints.ServerConfig)
    (authContext : option auth.Context) (grpcAddress : string)
    (grpcConnectionOpts : list string) (gwmux : runtime_ServeMux) :
  entrypoints.UseAuth (entrypoints.Security cfg) = true →
  entrypoints.RegisterAdminServiceHandlerFromEndpoint ctx
    (entrypoints.runtime_NewServeMux
       [entrypoints.WithMarshalerOption "application/octet-stream" "ProtoMarshaller";
        entrypoints.WithMetadata
          (entrypoints.GetHttpRequestCookieToMetadataHandler authContext)])
    grpcAddress grpcConnectionOpts = (gwmux, None) →
  entrypoints.newHTTPServer ctx cfg authContext grpcAddress grpcConnectionOpts
  = Returns (Some (<["/" := entrypoints.gateway_ServeHTTP gwmux]>
                     (<["/callback" := entrypoints.GetCallbackHandler ctx authContext]>
                        (<["/login" :=
                             entrypoints.RefreshTokensIfExists ctx authContext
                               (entrypoints.GetLoginHandler ctx authContext)]>
                           (<["/login_page" := entrypoints.loginPage]>
                              (<["/api/v1/openapi" := entrypoints.GetHandleOpenapiSpec ctx]>
                                 (<["/healthcheck" := entrypoints.healthcheck]> ∅)))))),
             None).
Proof.
  intros Hauth Hreg. unfold entrypoints.newHTTPServer, http.NewServeMux.
  rewrite Hauth.
  repeat (rewrite Handle_fresh by (by simplify_map_eq); cbn [exec_bind]).
  rewrite Hreg.
  by rewrite Handle_fresh by (by simplify_map_eq).
Qed.

End entrypoints_properties.

(** When the gateway registration fails no mux is returned. *)
Lemma newHTTPServer_registration_error `{Collaborators} `{!entrypoints.Environment}
    (ctx : context_Context) (cfg : entrypoints.ServerConfig)
    (authContext : option auth.Context) (grpcAddress : string)
    (grpcConnectionOpts : list string) :
  ∃ gatewayOptions,
    ∀ gwmux err,
      entrypoints.RegisterAdminServiceHandlerFromEndpoint ctx
        (entrypoints.runtime_NewServeMux gatewayOptions) grpcAddress grpcConnectionOpts
      = (gwmux, Some err) →
      entrypoints.newHTTPServer ctx cfg authContext grpcAddress grpcConnectionOpts
      = Returns (None, Some (errors.withMessage "error registering admin service" err)).
Proof.
  unfold entrypoints.newHTTPServer, http.NewServeMux.
  destruct (entrypoints.UseAuth (entrypoints.Security cfg));
    eexists; intros gwmux err Hreg;
    repeat (rewrite Handle_fresh by (by simplify_map_eq); cbn [exec_bind]);
    by rewrite Hreg.
Qed.

(** C8, as the code has it. When [newHTTPServer] returns a mux, that is
    when the gateway registration succeeds: the mux has the handlers of
    [/healthcheck], which answers with status 200, of [/api/v1/openapi] and
    of [/], which is the gRPC-gateway mux; with authentication enabled it
    also has the handlers of [/login], [/callback] and [/login_page], and so
    every listed route; with authentication disabled it has none of these
    three. *)
Theorem newHTTPServer_routes_by_auth_setting `{Collaborators} `{!entrypoints.Environment}
    (ctx : context_Context) (cfg : entrypoints.ServerConfig)
    (authContext : option auth.Context) (grpcAddress : string)
    (grpcConnectionOpts : list string) (gwmux : runtime_ServeMux) :
  let useAuth := entrypoints.UseAuth (entrypoints.Security cfg) in
  let gatewayOptions :=
    if useAuth
    then [entrypoints.WithMarshalerOption "application/octet-stream" "ProtoMarshaller";
          entrypoints.WithMetadata
            (entrypoints.GetHttpRequestCookieToMetadataHandler authContext)]
    else [entrypoints.WithMarshalerOption "application/octet-stream" "ProtoMarshaller"] in
  entrypoints.RegisterAdminServiceHandlerFromEndpoint ctx
    (entrypoints.runtime_NewServeMux gatewayOptions) grpcAddress grpcConnectionOpts
  = (gwmux, None) →
  ∃ mux,
    entrypoints.newHTTPServer ctx cfg authContext grpcAddress grpcConnectionOpts
    = Returns (Some mux, None)
    ∧ mux !! "/healthcheck" = Some entrypoints.healthcheck
    ∧ (∀ w r, http.status w = None → http.URL_Path r = "/healthcheck" →
              http.status (http.ServeHTTP mux w r) = Some 200%Z)
    ∧ mux !! "/api/v1/openapi" = Some (entrypoints.GetHandleOpenapiSpec ctx)
    ∧ mux !! "/" = Some (entrypoints.gateway_ServeHTTP gwmux)
    ∧ if useAuth
      then mux !! "/login"
           = Some (entrypoints.RefreshTokensIfExists ctx authContext
                     (entrypoints.GetLoginHandler ctx authContext))
           ∧ mux !! "/callback" = Some (entrypoints.GetCallbackHandler ctx authContext)
           ∧ mux !! "/login_page" = Some entrypoints.loginPage
           ∧ exposesAllRoutes mux
      else mux !! "/login" = None
           ∧ mux !! "/callback" = None
           ∧ mux !! "/login_page" = None
           ∧ dom mux = {[ "/healthcheck"; "/api/v1/openapi"; "/" ]}
           ∧ ∀ w r, http.URL_Path r = "/login" →
                    http.ServeHTTP mux w r = entrypoints.gateway_ServeHTTP gwmux w r.
Proof.
  intros useAuth gatewayOptions Hreg.
  assert (Hhealth : ∀ (mux : http.ServeMux) (w : http.ResponseWriter) (r : http.Request),
             mux !! "/healthcheck" = Some entrypoints.healthcheck →
             http.status w = None → http.URL_Path r = "/healthcheck" →
             http.status (http.ServeHTTP mux w r) = Some 200%Z).
  { intros mux w r Hmux Hw Hr. unfold http.ServeHTTP, http.match_.
    rewrite Hr, Hmux. unfold entrypoints.healthcheck, http.WriteHeader. by rewrite Hw. }
  destruct (entrypoints.UseAuth (entrypoints.Security cfg)) eqn:Hauth;
    subst useAuth gatewayOptions; cbn [fst snd] in *.
  - rewrite (newHTTPServer_with_auth ctx cfg authContext _ _ gwmux Hauth Hreg).
    eexists. split; [reflexivity |].
    split_and!; try done.
    + intros w r. by apply Hhealth.
    + intros route Hroute. unfold exposedRoutes in Hroute.
      repeat (apply elem_of_cons in Hroute as [-> | Hroute]; [by simplify_map_eq |]).
      by apply elem_of_nil in Hroute.
  - rewrite (newHTTPServer_without_auth ctx cfg authContext _ _ gwmux Hauth Hreg).
    eexists. split; [reflexivity |].
    split_and!; try done.
    + intros w r. by apply Hhealth.
    + intros w r Hr. unfold http.ServeHTTP. by rewrite Hr.
Qed.

Lemma newHTTPServer_routes_by_auth_setting_witness :
  ∃ mux,
    @entrypoints.newHTTPServer demoCollaborators demoEntrypoints "boot" withAuth None
      "localhost:8089" []
    = Returns (Some mux, None)
    ∧ exposesAllRoutes mux.
Proof.
  destruct (@newHTTPServer_routes_by_auth_setting demoCollaborators demoEntrypoints
              "boot" withAuth None "localhost:8089" [] ["/api/v1/projects"] eq_refl)
    as (mux & Hmux & _ & _ & _ & _ & _ & _ & _ & Hall).
  exists mux. split; [exact Hmux | exact Hall].
Defined.

(** C8, as stated, fails: the server built with authentication disabled
    returns a mux in which [/login] has no handler. *)
Lemma newHTTPServer_without_auth_lacks_login_routes :
  ¬ (∀ cfg mux,
       @entrypoints.newHTTPServer demoCollaborators demoEntrypoints "boot" cfg None
         "localhost:8089" []
       = Returns (Some mux, None) →
       exposesAllRoutes mux).
Proof.
  intros Hall.
  specialize (Hall withoutAuth _
                (@newHTTPServer_without_auth demoCollaborators demoEntrypoints "boot"
                   withoutAuth None "localhost:8089" [] ["/api/v1/projects"]
                   eq_refl eq_refl)).
  destruct (Hall "/login") as [handler Hhandler].
  - unfold exposedRoutes. set_solver.
  - by simplify_map_eq.
Qed.

Lemma newGRPCServer_authenticates_before_handler_and_metrics_witness :
  ∃ srv,
    @entrypoints.newGRPCServer demoCollaborators demoEntrypoints "boot" withAuth None
      [grpc.Creds "tls"]
    = Returns (Some srv, None)
    ∧ grpc.handleUnary srv "caller" "request" getProject echoHandler
      = ((None, Some (errors.statusError errors.codes_Unauthenticated "no token")),
         [grpc.MetricsStarted "/flyteidl.service.AdminService/GetProject";
          grpc.MetricsMsgReceived "/flyteidl.service.AdminService/GetProject";
          grpc.AuthDecision "/flyteidl.service.AdminService/GetProject"
            (Some (errors.statusError errors.codes_Unauthenticated "no token"));
          grpc.MetricsHandled "/flyteidl.service.AdminService/GetProject"
            errors.codes_Unauthenticated]).
Proof.
  destruct (@newGRPCServer_authenticates_before_handler_and_metrics demoCollaborators
              demoEntrypoints "boot" withAuth None [grpc.Creds "tls"] eq_refl)
    as (srv & Hsrv & Hcall).
  - constructor; [intros o; eexists; split_and!; reflexivity | constructor].
  - exists srv. split; [exact Hsrv |].
    exact (Hcall "caller" "request" getProject echoHandler).
Defined.

(** ** Preparing a workflow *)

Section executions_properties.
Context `{QuantityOps}.

Lemma collectOverride_panicked (reason : string)
    (overrides : list (option admin.PluginOverride)) :
  foldl executions.collectOverride (Panics reason) overrides = Panics reason.
Proof. induction overrides as [|o overrides IH]; [done | apply IH]. Qed.

(** The loop completes exactly when no entry is nil. *)
Lemma collectOverride_returns (overrides : list (option admin.PluginOverride))
    (impls : gmap string v1alpha1.TaskPluginOverride) :
  Forall is_Some overrides →
  ∃ impls', foldl executions.collectOverride (Returns impls) overrides = Returns impls'.
Proof.
  intros Hall. revert impls.
  induction Hall as [|o overrides [override ->] _ IH]; intros impls; [by eexists |].
  apply IH.
Qed.

Lemma collectOverride_panics (overrides : list (option admin.PluginOverride))
    (impls : gmap string v1alpha1.TaskPluginOverride) :
  ¬ Forall is_Some overrides →
  foldl executions.collectOverride (Returns impls) overrides
  = Panics "invalid memory address or nil pointer dereference".
Proof.
  revert impls. induction overrides as [|o overrides IH]; intros impls Hnil.
  - by destruct Hnil.
  - destruct o as [override|]; cbn [foldl executions.collectOverride exec_bind].
    + apply IH. intros Hall. apply Hnil. by constructor.
    + apply collectOverride_panicked.
Qed.

Lemma addExecutionOverrides_returns
    (overrides : list (option admin.PluginOverride))
    (cfg : option admin.WorkflowExecutionConfig)
    (recovery : option core.WorkflowExecutionIdentifier)
    (resources : option executions.TaskResources) (wf : v1alpha1.FlyteWorkflow) :
  Forall is_Some overrides →
  ∃ wf', executions.addExecutionOverrides overrides cfg recovery resources wf
         = Returns wf'.
Proof.
  intros Hall. unfold executions.addExecutionOverrides.
  destruct (collectOverride_returns overrides ∅ Hall) as [impls Himpls].
  rewrite Himpls. by eexists.
Qed.

Lemma addExecutionOverrides_panics
    (overrides : list (option admin.PluginOverride))
    (cfg : option admin.WorkflowExecutionConfig)
    (recovery : option core.WorkflowExecutionIdentifier)
    (resources : option executions.TaskResources) (wf : v1alpha1.FlyteWorkflow) :
  ¬ Forall is_Some overrides →
  executions.addExecutionOverrides overrides cfg recovery resources wf
  = Panics "invalid memory address or nil pointer dereference".
Proof.
  intros Hnil. unfold executions.addExecutionOverrides.
  by rewrite (collectOverride_panics overrides ∅ Hnil).
Qed.

(** C10, as the code has it. A nil [ExecutionID] or a nil workflow makes
    [PrepareFlyteWorkflow] return an error and leave the workflow as it
    was, and an error is returned in no other case. With both present and
    no nil entry among the plugin overrides it returns nil and a prepared
    workflow; a nil entry among them makes it panic instead. *)
Theorem PrepareFlyteWorkflow_error_iff_nil_input
    (input : executions.PrepareFlyteWorkflowInput)
    (flyteWorkflow : option v1alpha1.FlyteWorkflow) :
  (executions.ExecutionID input = None ∨ flyteWorkflow = None →
   ∃ err, executions.PrepareFlyteWorkflow input flyteWorkflow
          = Returns (Some err, flyteWorkflow))
  ∧ (∀ err after,
       executions.PrepareFlyteWorkflow input flyteWorkflow = Returns (Some err, after) →
       (executions.ExecutionID input = None ∨ flyteWorkflow = None)
       ∧ after = flyteWorkflow)
  ∧ (is_Some (executions.ExecutionID input) → is_Some flyteWorkflow →
     Forall is_Some (executions.TaskPluginOverrides input) →
     ∃ prepared,
       executions.PrepareFlyteWorkflow input flyteWorkflow
       = Returns (None, Some prepared)
       ∧ v1alpha1.ExecutionID prepared = executions.ExecutionID input)
  ∧ (is_Some (executions.ExecutionID input) → is_Some flyteWorkflow →
     ¬ Forall is_Some (executions.TaskPluginOverrides input) →
     ∃ reason, executions.PrepareFlyteWorkflow input flyteWorkflow = Panics reason).
Proof.
  unfold executions.PrepareFlyteWorkflow.
  destruct (executions.ExecutionID input) as [executionID|] eqn:Hid;
    [destruct flyteWorkflow as [wf|] |].
  - destruct (decide (Forall is_Some (executions.TaskPluginOverrides input)))
      as [Hall|Hnil].
    + match goal with
      | |- context [executions.addExecutionOverrides ?o ?c ?r ?t ?w] =>
          destruct (addExecutionOverrides_returns o c r t w Hall) as [wf' Hwf'];
          rewrite Hwf'
      end.
      cbn [exec_bind]. split_and!.
      * by intros [?|?].
      * intros err after Hrun. by destruct (executions.RawOutputDataConfig input).
      * intros _ _ _. eexists. split; [reflexivity |].
        unfold executions.addExecutionOverrides in Hwf'.
        destruct (foldl _ _ _); [| done]. cbn [exec_bind] in Hwf'.
        injection Hwf' as <-.
        destruct (executions.RawOutputDataConfig input); cbn.
        all: by destruct (executions.Auth input) as [[role account]|]; cbn;
          repeat case_match.
      * by intros _ _ Hnil.
    + match goal with
      | |- context [executions.addExecutionOverrides ?o ?c ?r ?t ?w] =>
          rewrite (addExecutionOverrides_panics o c r t w Hnil)
      end.
      cbn [exec_bind]. split_and!; try done.
      * by intros [?|?].
      * by eexists.
  - split_and!.
    + intros _. by eexists.
    + intros err after [= <- <-]. auto.
    + by intros _ [? ?].
    + by intros _ [? ?].
  - split_and!.
    + intros _. by eexists.
    + intros err after [= <- <-]. auto.
    + by intros [? ?].
    + by intros [? ?].
Qed.

End executions_properties.

Lemma PrepareFlyteWorkflow_error_iff_nil_input_witness :
  ∃ prepared,
    @executions.PrepareFlyteWorkflow amountQuantity demoLaunch (Some emptyWorkflow)
    = Returns (None, Some prepared)
    ∧ v1alpha1.ExecutionID prepared = Some demoExecution.
Proof.
  destruct (@PrepareFlyteWorkflow_error_iff_nil_input amountQuantity demoLaunch
              (Some emptyWorkflow)) as (_ & _ & Hprepared & _).
  apply Hprepared; [by eexists | by eexists |].
  constructor; [by eexists | constructor].
Defined.

(** C10, as stated, fails: with an [ExecutionID] and a workflow, a nil
    entry among the plugin overrides makes the call panic, so it does not
    return nil. *)
Lemma PrepareFlyteWorkflow_nil_override_panics :
  is_Some (executions.ExecutionID launchWithNilOverride)
  ∧ @executions.PrepareFlyteWorkflow amountQuantity launchWithNilOverride
      (Some emptyWorkflow)
    = Panics "invalid memory address or nil pointer dereference"
  ∧ ¬ ∃ err after,
        @executions.PrepareFlyteWorkflow amountQuantity launchWithNilOverride
          (Some emptyWorkflow)
        = Returns (err, after).
Proof.
  assert (Hrun : @executions.PrepareFlyteWorkflow amountQuantity launchWithNilOverride
                   (Some emptyWorkflow)
                 = Panics "invalid memory address or nil pointer dereference")
    by reflexivity.
  split_and!; [by eexists | exact Hrun |].
  intros (err & after & Hret). rewrite Hrun in Hret. discriminate.
Qed.

(** * Further properties *)

(** ** The OAuth2 client configuration *)

Lemma escape_needsNoEscape (mode : url.encoding) (s : string) :
  needsNoEscape mode s = true → url.escape s mode = s.
Proof.
  induction s as [|c s IH]; [done |].
  cbn [needsNoEscape url.escape]. intros [Hc Hs]%andb_true_iff.
  apply negb_true_iff in Hc. rewrite Hc. by rewrite IH.
Qed.

Lemma is_prefix_append (p t : string) : is_prefix p (p +:+ t).
Proof. by exists t. Qed.

Section oauth2_config_properties.
Context `{Collaborators} `{!auth.Environment}.
Context (ctx : context_Context) (sm : auth.SecretManager).

(** X1. Read from the secret manager, the client secret loses one trailing
    newline and no more: a stored value [s] followed by a newline gives
    [s], also when [s] itself ends in a newline, and a value without a
    trailing newline is kept as it is. The other fields are the configured
    client id and scopes and the provider's endpoints. *)
Theorem GetOAuth2ClientConfig_trims_one_trailing_newline
    (options : config.OpenIDOptions) (publicHTTPBaseUrl : url.URL)
    (providerEndpoints : oauth2.Endpoint) (stored : string) :
  config.DeprecatedClientSecretFile options = "" →
  auth.Get sm ctx (config.ClientSecretName options) = Ok stored →
  ∃ cfg,
    auth.GetOAuth2ClientConfig ctx options publicHTTPBaseUrl providerEndpoints sm
    = (cfg, None)
    ∧ (∀ s, stored = s +:+ newline → oauth2.ClientSecret cfg = s)
    ∧ (∀ s, stored = s +:+ newline +:+ newline →
            oauth2.ClientSecret cfg = s +:+ newline)
    ∧ (strings.HasSuffix stored newline = false → oauth2.ClientSecret cfg = stored)
    ∧ oauth2.ClientID cfg = config.ClientID options
    ∧ oauth2.Scopes cfg = config.Scopes options
    ∧ oauth2.Endpoint_ cfg = providerEndpoints.
Proof.
  intros Hd Hs.
  rewrite (GetOAuth2ClientConfig_from_secret_manager ctx sm options publicHTTPBaseUrl
             providerEndpoints stored Hd Hs).
  eexists. split; [reflexivity |]. cbn [oauth2.ClientSecret oauth2.ClientID
    oauth2.Scopes oauth2.Endpoint_]. split_and!; try done.
  - intros s ->. apply TrimSuffix_append.
  - intros s ->. apply TrimSuffix_two_newlines.
  - apply TrimSuffix_no_suffix.
Qed.

(** X2. [GetOAuth2ClientConfig] never returns an error beside a filled
    configuration: an error comes with the zero configuration, and it is
    the error of the secret source that was read, not wrapped. *)
Theorem GetOAuth2ClientConfig_error_is_the_readers
    (options : config.OpenIDOptions) (publicHTTPBaseUrl : url.URL)
    (providerEndpoints : oauth2.Endpoint) (cfg : oauth2.Config) (e : error) :
  auth.GetOAuth2ClientConfig ctx options publicHTTPBaseUrl providerEndpoints sm
  = (cfg, Some e) →
  cfg = oauth2.zero
  ∧ ((config.DeprecatedClientSecretFile options ≠ ""
      ∧ auth.ioutil_ReadFile (config.ClientSecretName options) = Err e)
     ∨ (config.DeprecatedClientSecretFile options = ""
        ∧ auth.Get sm ctx (config.ClientSecretName options) = Err e)).
Proof.
  unfold auth.GetOAuth2ClientConfig.
  destruct (config.DeprecatedClientSecretFile options) as [|c file];
    cbn [String.length Nat.ltb Nat.leb].
  - destruct (auth.Get sm ctx _) as [secret|e']; [done |].
    intros [= <- <-]. auto.
  - destruct (auth.ioutil_ReadFile _) as [secret|e']; [done |].
    intros [= <- <-]. split; [done |]. left. by split.
Qed.

(** X3. For a public base URL with a scheme, a host whose bytes need no
    escaping and no user information, the redirect URL of a configuration
    that [GetOAuth2ClientConfig] returns is [scheme://host/callback],
    whatever the path, query and fragment of the base URL are. *)
Theorem GetOAuth2ClientConfig_redirect_is_scheme_host_callback
    (options : config.OpenIDOptions) (publicHTTPBaseUrl : url.URL)
    (providerEndpoints : oauth2.Endpoint) (cfg : oauth2.Config) :
  url.Scheme publicHTTPBaseUrl ≠ "" →
  url.Host publicHTTPBaseUrl ≠ "" →
  needsNoEscape url.encodeHost (url.Host publicHTTPBaseUrl) = true →
  url.User publicHTTPBaseUrl = None →
  auth.GetOAuth2ClientConfig ctx options publicHTTPBaseUrl providerEndpoints sm
  = (cfg, None) →
  oauth2.RedirectURL cfg
  = url.Scheme publicHTTPBaseUrl +:+ "://" +:+ url.Host publicHTTPBaseUrl
    +:+ "/callback".
Proof.
  intros Hs Hh Hplain Hu Hcfg.
  rewrite (GetOAuth2ClientConfig_RedirectURL ctx options publicHTTPBaseUrl
             providerEndpoints sm cfg Hcfg).
  unfold auth.callbackRelativeUrl. rewrite ResolveReference_callback, Hu.
  rewrite String_scheme_host by auto.
  by rewrite (escape_needsNoEscape _ _ Hplain).
Qed.

End oauth2_config_properties.

Lemma GetOAuth2ClientConfig_trims_one_trailing_newline_witness :
  ∃ cfg,
    @auth.GetOAuth2ClientConfig demoCollaborators demoEnvironment "boot" demoOpenID
      (config.HTTPPublicUri demoOptions) (oauth2.mkEndpoint "" "")
      (tableSecretManager demoSecrets) = (cfg, None)
    ∧ oauth2.ClientSecret cfg = "s3cr3t".
Proof.
  destruct (@GetOAuth2ClientConfig_trims_one_trailing_newline demoCollaborators
              demoEnvironment "boot" (tableSecretManager demoSecrets) demoOpenID
              (config.HTTPPublicUri demoOptions) (oauth2.mkEndpoint "" "")
              ("s3cr3t" +:+ newline) eq_refl eq_refl)
    as (cfg & Hcfg & Htrim & _).
  exists cfg. split; [exact Hcfg | exact (Htrim "s3cr3t" eq_refl)].
Defined.

Lemma GetOAuth2ClientConfig_error_is_the_readers_witness :
  oauth2.zero = oauth2.zero
  ∧ ((config.DeprecatedClientSecretFile demoOpenID ≠ ""
      ∧ @auth.ioutil_ReadFile demoCollaborators demoEnvironment
          (config.ClientSecretName demoOpenID)
        = Err (errors.errorString "secret not found: oidc_client_secret"))
     ∨ (config.DeprecatedClientSecretFile demoOpenID = ""
        ∧ auth.Get (tableSecretManager ∅) "boot" (config.ClientSecretName demoOpenID)
          = Err (errors.errorString "secret not found: oidc_client_secret"))).
Proof.
  exact (@GetOAuth2ClientConfig_error_is_the_readers demoCollaborators demoEnvironment
           "boot" (tableSecretManager ∅) demoOpenID (config.HTTPPublicUri demoOptions)
           (oauth2.mkEndpoint "" "") oauth2.zero
           (errors.errorString "secret not found: oidc_client_secret") eq_refl).
Defined.

Lemma GetOAuth2ClientConfig_redirect_is_scheme_host_callback_witness :
  ∃ cfg,
    @auth.GetOAuth2ClientConfig demoCollaborators demoEnvironment "boot" demoOpenID
      (url.mkURL "https" "" None "flyte.example:8443" "/console" false "tab=1" "top")
      (oauth2.mkEndpoint "" "") (tableSecretManager demoSecrets) = (cfg, None)
    ∧ oauth2.RedirectURL cfg = "https://flyte.example:8443/callback".
Proof.
  eexists. split; [reflexivity |].
  apply (@GetOAuth2ClientConfig_redirect_is_scheme_host_callback demoCollaborators
           demoEnvironment "boot" (tableSecretManager demoSecrets) demoOpenID
           (url.mkURL "https" "" None "flyte.example:8443" "/console" false "tab=1" "top")
           (oauth2.mkEndpoint "" "")); try done; reflexivity.
Defined.

(** ** The context in use *)

Section context_use_properties.
Context `{Collaborators} `{!auth.Environment}.

(** X4. [OAuth2ClientConfig] never writes to a descriptor that exists: a
    call that returns leaves every stored descriptor as it was, and either
    returns the context's own pointer with the store unchanged or appends
    one descriptor and returns its address, which differs from the
    context's pointer. *)
Theorem OAuth2ClientConfig_store_only_grows
    (c : auth.Context) (requestUrl : option url.URL) (h h' : auth.heap)
    (p : option auth.loc) :
  auth.OAuth2ClientConfig c requestUrl h = Returns (p, h') →
  (∀ l d, h !! l = Some d → h' !! l = Some d)
  ∧ ((h' = h ∧ p = auth.oauth2Client c)
     ∨ (∃ d, h' = h ++ [d] ∧ p = Some (length h) ∧ p ≠ auth.oauth2Client c
             ∧ h' !! length h = Some d)).
Proof.
  unfold auth.OAuth2ClientConfig.
  destruct requestUrl as [u|]; [| intros [= <- <-]; auto].
  destruct (auth.oauth2Client c) as [l|] eqn:Hc; cbn [mbind option_bind]; [| done].
  destruct (h !! l) as [dflt|] eqn:Hl; [| done].
  destruct (strings.HasPrefix _ _); cbn [auth.new]; intros [= <- <-]; [auto |].
  split.
  - intros l0 d Hd. by rewrite lookup_app_l by (by eapply lookup_lt_Some).
  - right. eexists. split_and!; [done | done | |].
    + intros [= Heq]. apply lookup_lt_Some in Hl. lia.
    + by rewrite lookup_app_r, Nat.sub_diag.
Qed.

Context (ctx : context_Context) (sm : auth.SecretManager)
        (oauth2Provider : option OAuth2Provider)
        (oauth2ResourceServer : option OAuth2ResourceServer)
        (metadataProvider : option OAuth2MetadataProvider)
        (infoProvider : option OIdCUserInfoProvider)
        (options : config.Config) (h0 : auth.heap).

(** X5. The context that comes with a construction error cannot resolve a
    descriptor for a request: with any request URL and any store,
    [OAuth2ClientConfig] panics on it. *)
Theorem NewAuthenticationContext_failed_context_panics_on_use
    (c : auth.Context) (err : error) (h : auth.heap) :
  auth.NewAuthenticationContext ctx sm oauth2Provider oauth2ResourceServer
    metadataProvider infoProvider options h0 = ((c, Some err), h) →
  ∀ (requestUrl : url.URL) (store : auth.heap),
    auth.OAuth2ClientConfig c (Some requestUrl) store
    = Panics "invalid memory address or nil pointer dereference".
Proof.
  intros Hrun requestUrl store.
  destruct (NewAuthenticationContext_cases ctx sm oauth2Provider oauth2ResourceServer
              metadataProvider infoProvider options h0)
    as [(step & e & Hfail) | (p & c0 & h' & _ & Hok & _)].
  - destruct (NewAuthenticationContext_step_failure ctx sm oauth2Provider
                oauth2ResourceServer metadataProvider infoProvider options h0
                step e Hfail) as [msg Hmsg].
    rewrite Hmsg in Hrun. by injection Hrun as <- _ _.
  - rewrite Hok in Hrun. discriminate.
Qed.

(** X6. A context built for a public base URL serves requests that arrive
    under the same scheme and host with the default descriptor, without
    allocating: when both URLs have that scheme and host and no user
    information, [OAuth2ClientConfig] returns the context's own pointer. *)
Theorem NewAuthenticationContext_same_host_request_shares_default
    (c : auth.Context) (h : auth.heap) (requestUrl : url.URL) :
  auth.NewAuthenticationContext ctx sm oauth2Provider oauth2ResourceServer
    metadataProvider infoProvider options h0 = ((c, None), h) →
  url.Scheme (config.HTTPPublicUri options) ≠ "" →
  url.Host (config.HTTPPublicUri options) ≠ "" →
  url.User (config.HTTPPublicUri options) = None →
  url.Scheme requestUrl = url.Scheme (config.HTTPPublicUri options) →
  url.Host requestUrl = url.Host (config.HTTPPublicUri options) →
  url.User requestUrl = None →
  ∃ l dflt,
    auth.oauth2Client c = Some l
    ∧ h !! l = Some dflt
    ∧ auth.OAuth2ClientConfig c (Some requestUrl) h = Returns (Some l, h).
Proof.
  intros Hrun Hs Hh Hu Hrs Hrh Hru.
  destruct (NewAuthenticationContext_cases ctx sm oauth2Provider oauth2ResourceServer
              metadataProvider infoProvider options h0)
    as [(step & e & Hfail) | (p & c0 & h' & Hall & Hok & Hfull)].
  - destruct (NewAuthenticationContext_step_failure ctx sm oauth2Provider
                oauth2ResourceServer metadataProvider infoProvider options h0
                step e Hfail) as [msg Hmsg].
    rewrite Hmsg in Hrun. discriminate.
  - rewrite Hok in Hrun. injection Hrun as <- <-.
    destruct Hfull as ((l & Hl & Hdflt) & _).
    destruct Hall as (hashKey & blockKey & _ & _ & _ & _ & Hcfg & _).
    apply GetOAuth2ClientConfig_RedirectURL in Hcfg.
    exists l, (producedOAuth2Config p). split_and!; [done | done |].
    apply (OAuth2ClientConfig_shared c0 requestUrl h' l _ Hl Hdflt).
    apply HasPrefix_spec. rewrite Hcfg.
    unfold auth.rootRelativeUrl, auth.callbackRelativeUrl.
    rewrite ResolveReference_root, ResolveReference_callback, Hrs, Hrh, Hru, Hu.
    rewrite !String_scheme_host by auto.
    exists "callback". by rewrite !append_assoc.
Qed.

(** X7. In a context that [NewAuthenticationContext] built, the user-info
    URL is nil, the HTTP client has the ten-second timeout, and the
    interceptor of the wrapped authentication service was made from the
    context as it was before the service was attached to it. *)
Theorem NewAuthenticationContext_built_context_accessors
    (c : auth.Context) (h : auth.heap) :
  auth.NewAuthenticationContext ctx sm oauth2Provider oauth2ResourceServer
    metadataProvider infoProvider options h0 = ((c, None), h) →
  auth.GetUserInfoURL c = None
  ∧ auth.GetHTTPClient c = Some (auth.mkClient 10000000000)
  ∧ auth.Options c = Some options
  ∧ ∃ svc,
      auth.AuthService c = Some svc
      ∧ auth.authInterceptor svc
        = auth.GetAuthenticationInterceptor (auth.set_AuthServiceImpl c None).
Proof.
  unfold auth.NewAuthenticationContext.
  repeat match goal with
         | |- context [match ?r with Ok _ => _ | Err _ => _ end] =>
             destruct r; [| done]
         end.
  destruct (auth.GetOAuth2ClientConfig _ _ _ _ _) as [cfg [e|]]; [done |].
  repeat match goal with
         | |- context [match ?r with Ok _ => _ | Err _ => _ end] =>
             destruct r; [| done]
         end.
  cbn [auth.new]. intros [= <- <-]. split_and!; try done. by eexists.
Qed.

End context_use_properties.

Lemma OAuth2ClientConfig_store_only_grows_witness :
  ([demoDescriptor]
     ++ [oauth2.mkConfig "flyte-client" "s3cr3t" (oauth2.Endpoint_ demoDescriptor)
           "https://b.example/callback" ["openid"; "profile"]]) !! 0
  = Some demoDescriptor.
Proof.
  destruct (@OAuth2ClientConfig_store_only_grows demoCollaborators demoContext
              (Some hostB) [demoDescriptor]
              ([demoDescriptor]
                 ++ [oauth2.mkConfig "flyte-client" "s3cr3t"
                       (oauth2.Endpoint_ demoDescriptor)
                       "https://b.example/callback" ["openid"; "profile"]])
              (Some 1) eq_refl) as [Hkept _].
  exact (Hkept 0 demoDescriptor eq_refl).
Defined.

Lemma NewAuthenticationContext_failed_context_panics_on_use_witness :
  @auth.OAuth2ClientConfig demoCollaborators auth.zeroContext (Some hostB) [demoDescriptor]
  = Panics "invalid memory address or nil pointer dereference".
Proof.
  exact (@NewAuthenticationContext_failed_context_panics_on_use demoCollaborators
           demoEnvironment "boot" (tableSecretManager secretsWithoutBlockKey)
           None None None None demoOptions [] auth.zeroContext _ [] eq_refl
           hostB [demoDescriptor]).
Defined.

Lemma NewAuthenticationContext_same_host_request_shares_default_witness :
  ∃ c h l dflt,
    @auth.NewAuthenticationContext demoCollaborators demoEnvironment "boot"
      (tableSecretManager demoSecrets) None None None None demoOptions []
    = ((c, None), h)
    ∧ auth.oauth2Client c = Some l
    ∧ h !! l = Some dflt
    ∧ auth.OAuth2ClientConfig c (Some hostA) h = Returns (Some l, h).
Proof.
  eexists _, _.
  destruct (@NewAuthenticationContext_same_host_request_shares_default demoCollaborators
              demoEnvironment "boot" (tableSecretManager demoSecrets) None None None None
              demoOptions [] _ _ hostA eq_refl)
    as (l & dflt & Hl & Hd & Hcall); try done.
  exists l, dflt. split; [reflexivity |]. split_and!; [exact Hl | exact Hd | exact Hcall].
Defined.

Lemma NewAuthenticationContext_built_context_accessors_witness :
  ∃ c h,
    @auth.NewAuthenticationContext demoCollaborators demoEnvironment "boot"
      (tableSecretManager demoSecrets) None None None None demoOptions []
    = ((c, None), h)
    ∧ auth.GetUserInfoURL c = None
    ∧ auth.GetHTTPClient c = Some (auth.mkClient 10000000000).
Proof.
  eexists _, _. split; [reflexivity |].
  destruct (@NewAuthenticationContext_built_context_accessors demoCollaborators
              demoEnvironment "boot" (tableSecretManager demoSecrets) None None None None
              demoOptions [] _ _ eq_refl) as (Hu & Hc & _).
  split; [exact Hu | exact Hc].
Defined.

(** ** The servers of serve.go *)


Section server_properties.
Context `{Collaborators} `{!entrypoints.Environment}.

(** The server that [newGRPCServer] returns carries the chain built for the
    authentication setting, and the admin service. *)
Lemma newGRPCServer_interceptor
    (ctx : context_Context) (cfg : entrypoints.ServerConfig)
    (authContext : option auth.Context) (opts : list grpc.ServerOption) :
  Forall grpc.leavesInterceptors opts →
  ∃ srv,
    entrypoints.newGRPCServer ctx cfg authContext opts = Returns (Some srv, None)
    ∧ grpc.services srv = ["flyteidl.service.AdminService"]
    ∧ grpc.unaryInt (grpc.opts srv)
      = Some (if entrypoints.UseAuth (entrypoints.Security cfg)
              then grpc.ChainUnaryServer
                     [grpc.grpc_prometheus_UnaryServerInterceptor;
                      grpc.grpcauth_UnaryServerInterceptor
                        (entrypoints.GetAuthenticationInterceptor authContext);
                      entrypoints.AuthenticationLoggingInterceptor]
              else grpc.ChainUnaryServer [grpc.grpc_prometheus_UnaryServerInterceptor]).
Proof.
  intros Hopts. unfold entrypoints.newGRPCServer, grpc.NewServer.
  rewrite foldl_app.
  cbn [foldl exec_bind grpc.StreamInterceptor grpc.UnaryInterceptor
       grpc.unaryInt grpc.streamInt grpc.creds].
  match goal with
  | |- context [foldl _ (Returns ?o) opts] =>
      destruct (apply_other_options opts o Hopts) as (o' & -> & Hu & _)
  end.
  cbn [exec_bind]. eexists. split; [reflexivity |].
  unfold grpc.RegisterService. cbn [grpc.opts grpc.services]. split; [done |].
  rewrite Hu. cbn [grpc.unaryInt]. by destruct (entrypoints.UseAuth _).
Qed.


(** X9. In the server built with authentication disabled, no
    authentication decision is taken: the method handler runs on the
    caller's context directly under the metrics interceptor, also for a
    service that has an override of its own. *)
Theorem newGRPCServer_without_auth_runs_handler_directly
    (ctx : context_Context) (cfg : entrypoints.ServerConfig)
    (authContext : option auth.Context) (opts : list grpc.ServerOption) :
  entrypoints.UseAuth (entrypoints.Security cfg) = false →
  Forall grpc.leavesInterceptors opts →
  ∃ srv,
    entrypoints.newGRPCServer ctx cfg authContext opts = Returns (Some srv, None)
    ∧ ∀ callCtx req info handler,
        grpc.handleUnary srv callCtx req info handler
        = let m := grpc.FullMethod info in
          let '((resp, herr), evs) := handler callCtx req in
          ((resp, herr),
           [grpc.MetricsStarted m; grpc.MetricsMsgReceived m]
           ++ evs
           ++ grpc.MetricsHandled m (errors.status_Code herr)
              :: match herr with
                 | None => [grpc.MetricsMsgSent m]
                 | Some _ => []
                 end).
Proof.
  intros Hauth Hopts.
  destruct (newGRPCServer_interceptor ctx cfg authContext opts Hopts)
    as (srv & Hsrv & _ & Hint).
  exists srv. split; [done |].
  intros callCtx req info handler.
  unfold grpc.handleUnary. rewrite Hint, Hauth.
  unfold grpc.ChainUnaryServer. cbn [foldr].
  unfold grpc.grpc_prometheus_UnaryServerInterceptor.
  cbn [grpc.bind grpc.emit grpc.ret].
  destruct (handler callCtx req) as [[resp [herr|]] evs]; cbn; by rewrite ?app_nil_r.
Qed.

(** X10. The OpenAPI handler answers a fresh response with status 200 and
    the bundled specification as body when the asset is there, and with
    status 424 and no body when it is not. *)
Theorem GetHandleOpenapiSpec_serves_asset_or_424
    (ctx : context_Context) (w : http.ResponseWriter) (r : http.Request) :
  http.status w = None →
  let w' := entrypoints.GetHandleOpenapiSpec ctx w r in
  match entrypoints.flyteService_Asset "admin.swagger.json" with
  | Ok swaggerBytes =>
      http.status w' = Some 200%Z ∧ http.body w' = http.body w +:+ swaggerBytes
  | Err _ =>
      http.status w' = Some 424%Z ∧ http.body w' = http.body w
  end.
Proof.
  intros Hw w'. subst w'. unfold entrypoints.GetHandleOpenapiSpec.
  destruct (entrypoints.flyteService_Asset _) as [swaggerBytes|e];
    unfold http.Write, http.WriteHeader; rewrite Hw; cbn; by rewrite ?Hw.
Qed.

(** X11. [newHTTPServer] never panics: its registrations never collide. It
    returns a mux and no error when the gateway registration succeeds, and
    no mux and the registration error, annotated, when it fails. *)
Theorem newHTTPServer_returns_mux_or_registration_error
    (ctx : context_Context) (cfg : entrypoints.ServerConfig)
    (authContext : option auth.Context) (grpcAddress : string)
    (grpcConnectionOpts : list string) :
  let gatewayOptions :=
    if entrypoints.UseAuth (entrypoints.Security cfg)
    then [entrypoints.WithMarshalerOption "application/octet-stream" "ProtoMarshaller";
          entrypoints.WithMetadata
            (entrypoints.GetHttpRequestCookieToMetadataHandler authContext)]
    else [entrypoints.WithMarshalerOption "application/octet-stream" "ProtoMarshaller"] in
  let registration :=
    entrypoints.RegisterAdminServiceHandlerFromEndpoint ctx
      (entrypoints.runtime_NewServeMux gatewayOptions) grpcAddress grpcConnectionOpts in
  match snd registration with
  | None =>
      ∃ mux,
        entrypoints.newHTTPServer ctx cfg authContext grpcAddress grpcConnectionOpts
        = Returns (Some mux, None)
        ∧ mux !! "/" = Some (entrypoints.gateway_ServeHTTP (fst registration))
  | Some err =>
      entrypoints.newHTTPServer ctx cfg authContext grpcAddress grpcConnectionOpts
      = Returns (None, Some (errors.withMessage "error registering admin service" err))
  end.
Proof.
  intros gatewayOptions registration. subst gatewayOptions registration.
  unfold entrypoints.newHTTPServer, http.NewServeMux.
  destruct (entrypoints.UseAuth (entrypoints.Security cfg));
    repeat (rewrite Handle_fresh by (by simplify_map_eq); cbn [exec_bind]);
    destruct (entrypoints.RegisterAdminServiceHandlerFromEndpoint _ _ _ _)
      as [gwmux [err|]]; cbn [fst snd]; try done;
    rewrite Handle_fresh by (by simplify_map_eq);
    eexists; (split; [reflexivity | by simplify_map_eq]).
Qed.


End server_properties.

(** ** The parts of the workflow preparation *)

Lemma map_fold_insert_union (overrides defaults : gmap string string) :
  map_fold (λ label value (acc : gmap string string), <[label := value]> acc)
    defaults overrides
  = overrides ∪ defaults.
Proof.
  apply (map_fold_weak_ind (λ acc (m : gmap string string), acc = m ∪ defaults)).
  - by rewrite (left_id_L ∅ (∪)).
  - intros label value m acc _ ->. by rewrite insert_union_l.
Qed.

Lemma addMapValues_union (overrides defaultValues : stringMap) :
  executions.addMapValues overrides defaultValues
  = Some (default ∅ overrides ∪ default ∅ defaultValues).
Proof.
  unfold executions.addMapValues.
  destruct overrides as [overrides|], defaultValues as [defaultValues|];
    cbn [default]; by rewrite ?map_fold_insert_union, ?(left_id_L ∅ (∪)).
Qed.

(** X13. [addMapValues] never returns the nil map. In its result a label
    of the overrides has the overriding value, and any other label has the
    value of the defaults, if it has one there; nil maps count as empty. *)
Theorem addMapValues_overrides_win (overrides defaultValues : stringMap) :
  ∃ merged,
    executions.addMapValues overrides defaultValues = Some merged
    ∧ ∀ label,
        merged !! label
        = match default ∅ overrides !! label with
          | Some value => Some value
          | None => default ∅ defaultValues !! label
          end.
Proof.
  rewrite addMapValues_union. eexists. split; [reflexivity |].
  intros label. rewrite lookup_union.
  by destruct (default ∅ overrides !! label), (default ∅ defaultValues !! label).
Qed.

Section overrides_properties.
Context `{QuantityOps}.

(** The plugin implementations collected from overrides without nil
    entry. *)
Lemma collectOverride_foldl (os : list admin.PluginOverride)
    (impls : gmap string v1alpha1.TaskPluginOverride) :
  foldl executions.collectOverride (Returns impls) (Some <$> os)
  = Returns (foldl (λ m o,
                      <[admin.TaskType o :=
                          v1alpha1.mkTaskPluginOverride (admin.PluginId o)
                            (admin.MissingPluginBehavior o)]> m)
                   impls os).
Proof.
  revert impls. induction os as [|o os IH]; intros impls; [done |].
  cbn [fmap list_fmap foldl executions.collectOverride exec_bind]. apply IH.
Qed.

Lemma foldl_insert_last_wins (os : list admin.PluginOverride) (taskType : string) :
  foldl (λ m o,
           <[admin.TaskType o :=
               v1alpha1.mkTaskPluginOverride (admin.PluginId o)
                 (admin.MissingPluginBehavior o)]> m)
        (∅ : gmap string v1alpha1.TaskPluginOverride) os !! taskType
  = (λ o, v1alpha1.mkTaskPluginOverride (admin.PluginId o)
            (admin.MissingPluginBehavior o))
    <$> last (filter (λ o, admin.TaskType o = taskType) os).
Proof.
  induction os as [|o os IH] using rev_ind; [done |].
  rewrite foldl_app, filter_app. cbn [foldl].
  destruct (decide (admin.TaskType o = taskType)) as [Heq|Hne].
  - rewrite filter_cons_True by done. rewrite filter_nil, last_snoc.
    by rewrite Heq, lookup_insert_eq.
  - rewrite filter_cons_False by done. rewrite filter_nil, app_nil_r.
    by rewrite lookup_insert_ne.
Qed.

(** X14. Given overrides without nil entry, [addExecutionOverrides] stores
    under each task type the plugins of the last override for that type,
    and nothing under a type without override. It replaces the execution
    configuration as a whole, so plugin entries the workflow had before
    are gone, and it leaves every other field of the workflow alone. *)
Theorem addExecutionOverrides_last_override_wins
    (os : list admin.PluginOverride)
    (workflowExecutionConfig : option admin.WorkflowExecutionConfig)
    (recoveryExecution : option core.WorkflowExecutionIdentifier)
    (taskResources : option executions.TaskResources)
    (flyteWf : v1alpha1.FlyteWorkflow) :
  ∃ flyteWf' impls,
    executions.addExecutionOverrides (Some <$> os) workflowExecutionConfig
      recoveryExecution taskResources flyteWf = Returns flyteWf'
    ∧ v1alpha1.TaskPluginImpls (v1alpha1.ExecutionConfig_ flyteWf') = Some impls
    ∧ (∀ taskType,
         impls !! taskType
         = (λ o, v1alpha1.mkTaskPluginOverride (admin.PluginId o)
                   (admin.MissingPluginBehavior o))
           <$> last (filter (λ o, admin.TaskType o = taskType) os))
    ∧ v1alpha1.RecoveryExecution (v1alpha1.ExecutionConfig_ flyteWf')
      = recoveryExecution
    ∧ flyteWf'
      = executions.set_ExecutionConfig flyteWf (v1alpha1.ExecutionConfig_ flyteWf').
Proof.
  unfold executions.addExecutionOverrides.
  rewrite collectOverride_foldl. cbn [exec_bind].
  eexists _, _. split; [reflexivity |].
  cbn [v1alpha1.ExecutionConfig_ executions.set_ExecutionConfig
       v1alpha1.TaskPluginImpls v1alpha1.RecoveryExecution].
  split_and!; [reflexivity | apply foldl_insert_last_wins | reflexivity | reflexivity].
Qed.

(** X15. The parallelism that [addExecutionOverrides] stores is an
    unsigned 32-bit number: zero without execution configuration, the
    configured value when that is not negative, and the configured value
    plus 2^32 when it is negative. *)
Theorem addExecutionOverrides_MaxParallelism_wraps
    (overrides : list (option admin.PluginOverride))
    (workflowExecutionConfig : option admin.WorkflowExecutionConfig)
    (recoveryExecution : option core.WorkflowExecutionIdentifier)
    (taskResources : option executions.TaskResources)
    (flyteWf flyteWf' : v1alpha1.FlyteWorkflow) :
  executions.addExecutionOverrides overrides workflowExecutionConfig
    recoveryExecution taskResources flyteWf = Returns flyteWf' →
  let stored := v1alpha1.MaxParallelism (v1alpha1.ExecutionConfig_ flyteWf') in
  (0 ≤ stored < 2 ^ 32)%Z
  ∧ match workflowExecutionConfig with
    | None => stored = 0%Z
    | Some cfg =>
        ((0 ≤ admin.MaxParallelism cfg < 2 ^ 31)%Z → stored = admin.MaxParallelism cfg)
        ∧ ((- 2 ^ 31 ≤ admin.MaxParallelism cfg < 0)%Z →
           stored = (2 ^ 32 + admin.MaxParallelism cfg)%Z)
    end.
Proof.
  unfold executions.addExecutionOverrides.
  destruct (foldl _ _ _) as [impls|]; [| done].
  cbn [exec_bind]. intros [= <-].
  cbn [v1alpha1.ExecutionConfig_ executions.set_ExecutionConfig v1alpha1.MaxParallelism].
  destruct workflowExecutionConfig as [cfg|]; [| by split].
  unfold executions.uint32. split; [by apply Z.mod_pos_bound | split].
  - intros Hrange. apply Z.mod_small. lia.
  - intros Hrange.
    rewrite <- (Z.mod_add _ 1) by done.
    rewrite Z.mod_small by lia. lia.
Qed.

End overrides_properties.

(** ** The prepared workflow *)

Section prepared_workflow_properties.
Context `{QuantityOps}.







End prepared_workflow_properties.

(** ** Launch plan schedules *)

Section validation_properties.
Context `{Printing}.

(** X19. The map made from parameter entries holds, under each key, the
    value of the last entry with that key, and nothing under a key that no
    entry has; a nil entry counts as an entry with the empty key and a nil
    value. *)
Theorem ParameterMapEntriesToMap_last_entry_wins
    (entries : list (option core.ParameterMapFieldEntry)) (key : string) :
  validation.ParameterMapEntriesToMap entries !! key
  = core.ParameterMapFieldEntry_GetValue
    <$> last (filter (λ e, core.ParameterMapFieldEntry_GetKey e = key) entries).
Proof.
  unfold validation.ParameterMapEntriesToMap.
  induction entries as [|e entries IH] using rev_ind; [done |].
  rewrite foldl_app, filter_app. cbn [foldl].
  destruct (decide (core.ParameterMapFieldEntry_GetKey e = key)) as [Heq|Hne].
  - rewrite filter_cons_True by done. rewrite filter_nil, last_snoc.
    by rewrite Heq, lookup_insert_eq.
  - rewrite filter_cons_False by done. rewrite filter_nil, app_nil_r.
    by rewrite lookup_insert_ne.
Qed.

(** X20. The map made from variable entries holds, under each key, the
    value of the last entry with that key, and nothing under a key that no
    entry has. *)
Theorem VariableMapEntriesToMap_last_entry_wins
    (entries : list (option core.VariableMapFieldEntry)) (key : string) :
  validation.VariableMapEntriesToMap entries !! key
  = core.VariableMapFieldEntry_GetValue
    <$> last (filter (λ e, core.VariableMapFieldEntry_GetKey e = key) entries).
Proof.
  unfold validation.VariableMapEntriesToMap.
  induction entries as [|e entries IH] using rev_ind; [done |].
  rewrite foldl_app, filter_app. cbn [foldl].
  destruct (decide (core.VariableMapFieldEntry_GetKey e = key)) as [Heq|Hne].
  - rewrite filter_cons_True by done. rewrite filter_nil, last_snoc.
    by rewrite Heq, lookup_insert_eq.
  - rewrite filter_cons_False by done. rewrite filter_nil, app_nil_r.
    by rewrite lookup_insert_ne.
Qed.

(** The first loop finds nothing exactly when every required entry is the
    kickoff-time argument. *)
Lemma firstUnboundRequired_None (kickoff : string)
    (entries : list (option core.ParameterMapFieldEntry)) :
  validation.firstUnboundRequired kickoff entries = None
  ↔ Forall (λ e,
              core.Parameter_GetRequired (core.ParameterMapFieldEntry_GetValue e) = true →
              core.ParameterMapFieldEntry_GetKey e = kickoff)
           entries.
Proof.
  induction entries as [|e entries IH]; cbn [validation.firstUnboundRequired].
  - split; [constructor | done].
  - destruct (core.Parameter_GetRequired (core.ParameterMapFieldEntry_GetValue e))
      eqn:Hreq; cbn [andb].
    + destruct (String.eqb_spec (core.ParameterMapFieldEntry_GetKey e) kickoff)
        as [Hk|Hk]; cbn [negb].
      * rewrite IH. split; [by constructor | by intros [_ ?]%Forall_cons].
      * split; [done |]. intros [He _]%Forall_cons. exfalso. by apply Hk, He.
    + rewrite IH. split; [| by intros [_ ?]%Forall_cons].
      intros Hrest. constructor; [by rewrite Hreq | done].
Qed.

Lemma SimpleType_eqb_eq (a b : core.SimpleType) :
  core.SimpleType_eqb a b = true ↔ a = b.
Proof. by destruct a, b. Qed.

(** X21. A request with neither a cron expression nor a rate passes
    [validateSchedule] whatever its inputs are, also with a nil parameter
    map: nothing is looked at. *)
Theorem validateSchedule_without_schedule_passes
    (request : admin.LaunchPlanCreateRequest)
    (expectedInputs : option core.ParameterMap) :
  admin.Schedule_GetCronExpression (scheduleOf request) = "" →
  admin.Schedule_GetRate (scheduleOf request) = None →
  validation.validateSchedule request expectedInputs = Returns None.
Proof.
  unfold scheduleOf, validation.validateSchedule. by intros -> ->.
Qed.

(** X22. For a request with a cron expression or a rate,
    [validateSchedule] accepts a parameter map exactly when every required
    parameter is the kickoff-time argument and, if a kickoff-time argument
    is named, the map made from the entries holds a parameter of simple
    type [DATETIME] under that name. *)
Theorem validateSchedule_accepts_iff
    (request : admin.LaunchPlanCreateRequest) (expectedInputs : core.ParameterMap) :
  admin.Schedule_GetCronExpression (scheduleOf request) ≠ ""
  ∨ is_Some (admin.Schedule_GetRate (scheduleOf request)) →
  let kickoff := admin.Schedule_GetKickoffTimeInputArg (scheduleOf request) in
  validation.validateSchedule request (Some expectedInputs) = Returns None
  ↔ Forall (λ e,
              core.Parameter_GetRequired (core.ParameterMapFieldEntry_GetValue e) = true →
              core.ParameterMapFieldEntry_GetKey e = kickoff)
           (core.Parameters expectedInputs)
    ∧ (kickoff = ""
       ∨ ∃ param,
           validation.ParameterMapEntriesToMap (core.Parameters expectedInputs) !! kickoff
           = Some param
           ∧ core.LiteralType_GetSimple
               (core.Variable_GetType (core.Parameter_GetVar param))
             = core.DATETIME).
Proof.
  intros Hscheduled kickoff. unfold validation.validateSchedule.
  fold (scheduleOf request). fold kickoff.
  assert (Hguard : negb (String.eqb (admin.Schedule_GetCronExpression (scheduleOf request)) "")
                   || bool_decide (is_Some (admin.Schedule_GetRate (scheduleOf request)))
                   = true).
  { destruct Hscheduled as [Hcron|Hrate].
    - by destruct (String.eqb_spec (admin.Schedule_GetCronExpression (scheduleOf request)) "").
    - rewrite (bool_decide_eq_true_2 _ Hrate). apply orb_true_r. }
  rewrite Hguard.
  destruct (validation.firstUnboundRequired kickoff (core.Parameters expectedInputs))
    as [e|] eqn:Hloop.
  - split; [done |]. intros [Hall _]. apply firstUnboundRequired_None in Hall.
    congruence.
  - apply firstUnboundRequired_None in Hloop.
    destruct (String.eqb_spec kickoff "") as [Hk|Hk]; cbn [negb].
    + split; [auto | done].
    + destruct (validation.ParameterMapEntriesToMap _ !! kickoff) as [param|] eqn:Hparam.
      * destruct (core.SimpleType_eqb _ core.DATETIME) eqn:Htype; cbn [negb].
        -- apply SimpleType_eqb_eq in Htype. split; [| done].
           intros _. split; [done |]. right. by exists param.
        -- split; [done |]. intros [_ [? | (param' & [= <-] & Hdt)]]; [done |].
           apply SimpleType_eqb_eq in Hdt. congruence.
      * split; [done |]. by intros [_ [? | (param' & ? & _)]].
Qed.

(** X23. With a parameter map that is not nil, [validateSchedule] never
    panics, and every error it returns has the code [InvalidArgument]. *)
Theorem validateSchedule_errors_are_InvalidArgument
    (request : admin.LaunchPlanCreateRequest) (expectedInputs : core.ParameterMap) :
  ∃ outcome,
    validation.validateSchedule request (Some expectedInputs) = Returns outcome
    ∧ ∀ err, outcome = Some err →
             errors.status_Code (Some err) = errors.codes_InvalidArgument.
Proof.
  unfold validation.validateSchedule.
  repeat case_match; eexists; (split; [reflexivity |]); by intros err [= <-].
Qed.

End validation_properties.

(** ** Instances of the further properties *)


Lemma newGRPCServer_without_auth_runs_handler_directly_witness :
  ∃ srv,
    @entrypoints.newGRPCServer demoCollaborators demoEntrypoints "boot" withoutAuth None []
    = Returns (Some srv, None)
    ∧ grpc.handleUnary srv "caller" "request" getProject echoHandler
      = ((Some "echo request", None),
         [grpc.MetricsStarted "/flyteidl.service.AdminService/GetProject";
          grpc.MetricsMsgReceived "/flyteidl.service.AdminService/GetProject";
          grpc.HandlerEvent "business method";
          grpc.MetricsHandled "/flyteidl.service.AdminService/GetProject" 0;
          grpc.MetricsMsgSent "/flyteidl.service.AdminService/GetProject"]).
Proof.
  destruct (@newGRPCServer_without_auth_runs_handler_directly demoCollaborators
              demoEntrypoints "boot" withoutAuth None [] eq_refl)
    as (srv & Hsrv & Hcall); [constructor |].
  exists srv. split; [exact Hsrv |].
  exact (Hcall "caller" "request" getProject echoHandler).
Defined.

Lemma GetHandleOpenapiSpec_serves_asset_or_424_witness :
  http.status (@entrypoints.GetHandleOpenapiSpec demoCollaborators demoEntrypoints "boot"
                 (http.mkResponseWriter None "") (http.mkRequest 1 ∅ "/api/v1/openapi"))
  = Some 200%Z
  ∧ http.body (@entrypoints.GetHandleOpenapiSpec demoCollaborators demoEntrypoints "boot"
                 (http.mkResponseWriter None "") (http.mkRequest 1 ∅ "/api/v1/openapi"))
    = "{}".
Proof.
  exact (@GetHandleOpenapiSpec_serves_asset_or_424 demoCollaborators demoEntrypoints
           "boot" (http.mkResponseWriter None "") (http.mkRequest 1 ∅ "/api/v1/openapi")
           eq_refl).
Defined.


Lemma addExecutionOverrides_MaxParallelism_wraps_witness :
  ∃ flyteWf',
    @executions.addExecutionOverrides amountQuantity []
      (Some (admin.mkWorkflowExecutionConfig (-1))) None None emptyWorkflow
    = Returns flyteWf'
    ∧ v1alpha1.MaxParallelism (v1alpha1.ExecutionConfig_ flyteWf') = 4294967295%Z.
Proof.
  eexists. split; [reflexivity |].
  destruct (@addExecutionOverrides_MaxParallelism_wraps amountQuantity []
              (Some (admin.mkWorkflowExecutionConfig (-1))) None None emptyWorkflow _
              eq_refl) as (_ & _ & Hneg).
  apply Hneg. cbn. lia.
Defined.




Lemma validateSchedule_without_schedule_passes_witness :
  @validation.validateSchedule kindPrinting unscheduledRequest None = Returns None.
Proof.
  exact (@validateSchedule_without_schedule_passes kindPrinting unscheduledRequest None
           eq_refl eq_refl).
Defined.

Lemma validateSchedule_accepts_iff_witness :
  @validation.validateSchedule kindPrinting dailyRequest (Some scheduledInputs)
  = Returns None.
Proof.
  apply (@validateSchedule_accepts_iff kindPrinting dailyRequest scheduledInputs).
  - left. discriminate.
  - split.
    + repeat constructor; cbn; by intros.
    + right. eexists. split; reflexivity.
Defined.
